(** * DrawingFileRename: the rename table, the spreadsheet bridge and the
      batch materializer of [Main_Programme.py]

    The development embeds the Python script as Rocq functions and proves
    the properties of its specification against that embedding.

    Modelling conventions.
    - A spreadsheet or table cell is a [cell]: either the missing value
      ([NaN], what pandas stores for a blank cell) or a text.  Cells holding
      numbers or dates are outside the model.
    - The session table [drawings_df] is the list of its rows, in row order.
    - A directory is a finite map from file name to content; the name of
      an uploaded file is a single path component, as the upload widget
      delivers it.  The working directory holds named directories and zip
      archives.
    - An output name comes from the imported sheet and is joined into a
      path: a plain file name is a key of the output directory, a name
      with a path separator is followed into a sub-directory (there is
      none), and a path the development does not follow (absolute,
      through [.] or [..], over-long) ends the run with [Unmodelled].
    - Code that touches the disk runs in a small state-and-exception monad
      [IO] over the file system. *)

From Stdlib Require Import Ascii String ZArith.
From stdpp Require Import gmap strings list fin_maps.

Local Open Scope string_scope.
Local Open Scope list_scope.

(** ** Values *)

Definition bytes := list Byte.byte.

Inductive cell : Type :=
  | NaN
  | Text (s : string).

#[global] Instance cell_eq_dec : EqDecision cell.
Proof. solve_decision. Defined.

(** ** [os.path.splitext] (posix flavour)

    The script calls the library function; its algorithm is the one of
    CPython's [genericpath._splitext] with [sep = "/"], no alternative
    separator and [extsep = "."]. *)

Module OsPath.

(** [p.rfind(c)]: index of the last occurrence, [-1] when absent. *)
Fixpoint rfind_from (c : ascii) (p : string) (i last : Z) : Z :=
  match p with
  | EmptyString => last
  | String a p' => rfind_from c p' (i + 1) (if Ascii.eqb a c then i else last)
  end.

Definition rfind (c : ascii) (p : string) : Z := rfind_from c p 0 (-1).

(** Slices [p[:k]] and [p[k:]]. *)
Definition slice_to (k : nat) (p : string) : string := substring 0 k p.
Definition slice_from (k : nat) (p : string) : string :=
  substring k (String.length p - k) p.

(** The [while filenameIndex < dotIndex] loop, run for the [n] indices
    that remain below [dotIndex]: [true] as soon as a character other
    than the dot is met, [false] when only leading dots were seen. *)
Fixpoint finds_name_char (p : string) (filenameIndex n : nat) : bool :=
  match n with
  | O => false
  | S n' =>
      match String.get filenameIndex p with
      | Some "."%char => finds_name_char p (S filenameIndex) n'
      | _ => true
      end
  end.

Definition splitext (p : string) : string * string :=
  let sepIndex := rfind "/" p in
  let dotIndex := rfind "." p in
  if (dotIndex >? sepIndex)%Z then
    let filenameIndex := Z.to_nat (sepIndex + 1) in
    if finds_name_char p filenameIndex (Z.to_nat dotIndex - filenameIndex)
    then (slice_to (Z.to_nat dotIndex) p, slice_from (Z.to_nat dotIndex) p)
    else (p, "")
  else (p, "").

End OsPath.

(** ** Tables

    [drawings_df] has the two columns ['Original Name'] and ['New Name'];
    the first always holds the uploaded file's name, the second a cell. *)

Record row := Row { original_name : string; new_name : cell }.

Abbreviation DataFrame := (list row).

Definition df_columns : list string := ["Original Name"; "New Name"].

(** [df[col]] on the session table, for [col] one of its two columns. *)
Definition df_column (col : string) (df : DataFrame) : list cell :=
  if String.eqb col "Original Name"
  then map (fun r => Text (original_name r)) df
  else map new_name df.

(** A spreadsheet read from or written to an Excel file: the header row
    and the records below it. *)
Record Sheet := { columns : list string; records : list (list cell) }.

Fixpoint index_of (c : string) (cols : list string) : option nat :=
  match cols with
  | [] => None
  | c' :: cols' =>
      if String.eqb c c' then Some O else S <$> index_of c cols'
  end.

(** [sheet[col]]: the column's cells in record order; a record too short
    to reach the column reads as a blank cell. *)
Definition sheet_column (col : string) (sh : Sheet) : list cell :=
  match index_of col (columns sh) with
  | Some i => map (fun rec => nth i rec NaN) (records sh)
  | None => []
  end.

(** [pd.DataFrame({c1: xs, c2: ys})] for two columns of equal length. *)
Definition sheet_of_columns (c1 : string) (xs : list cell)
                            (c2 : string) (ys : list cell) : Sheet :=
  {| columns := [c1; c2];
     records := zip_with (fun x y => [x; y]) xs ys |}.

(** [pd.isnull] / [pd.notna] on a cell. *)
Definition isnull (c : cell) : bool :=
  match c with NaN => true | Text _ => false end.
Definition notna (c : cell) : bool := negb (isnull c).

(** [.fillna('')]. *)
Definition fillna_empty (c : cell) : cell :=
  match c with NaN => Text "" | Text s => Text s end.

(** ** Exceptions and results *)

Inductive exn : Type :=
  | ValueError (msg : string)
  | InvalidIndexError
  | FileNotFoundError (path : string)
  | NotADirectoryError (path : string)
  | SameFileError
  | Unmodelled (path : string).

Inductive result (A : Type) : Type :=
  | Ok (a : A)
  | Raise (e : exn).
Arguments Ok {A} a.
Arguments Raise {A} e.

(** ** The file system and the [IO] monad *)

Record filesystem := FS {
  dirs : gmap string (gmap string bytes);
  zips : gmap string (gmap string bytes)
}.

Definition IO (A : Type) : Type := filesystem -> result A * filesystem.

#[global] Instance IO_ret : MRet IO := fun A a fs => (Ok a, fs).
#[global] Instance IO_bind : MBind IO := fun A B f m fs =>
  match m fs with
  | (Ok a, fs') => f a fs'
  | (Raise e, fs') => (Raise e, fs')
  end.

Definition raise {A} (e : exn) : IO A := fun fs => (Raise e, fs).
Definition lift_result {A} (r : result A) : IO A := fun fs => (r, fs).
Definition get_fs : IO filesystem := fun fs => (Ok fs, fs).
Definition put_fs (fs : filesystem) : IO unit := fun _ => (Ok tt, fs).

(** A [for x in xs: body] loop. *)
Fixpoint for_each {A} (xs : list A) (body : A -> IO unit) : IO unit :=
  match xs with
  | [] => mret tt
  | x :: xs' => body x ≫= fun _ => for_each xs' body
  end.

Definition join (dir file : string) : string := dir +:+ "/" +:+ file.

(** [os.makedirs(d, exist_ok=True)]. *)
Definition makedirs_exist_ok (d : string) : IO unit :=
  fs ← get_fs;
  match dirs fs !! d with
  | Some _ => mret tt
  | None => put_fs (FS (<[d := ∅]> (dirs fs)) (zips fs))
  end.

(** [os.path.exists(os.path.join(d, f))]. *)
Definition path_exists (d f : string) : IO bool :=
  fs ← get_fs;
  mret (match dirs fs !! d with
        | Some files => bool_decide (is_Some (files !! f))
        | None => false
        end).

(** [open(os.path.join(d, f), "rb").read()]. *)
Definition read_file (d f : string) : IO bytes :=
  fs ← get_fs;
  match dirs fs !! d with
  | Some files =>
      match files !! f with
      | Some content => mret content
      | None => raise (FileNotFoundError (join d f))
      end
  | None => raise (FileNotFoundError (join d f))
  end.

(** [with open(os.path.join(d, f), "wb") as h: h.write(content)]. *)
Definition write_file (d f : string) (content : bytes) : IO unit :=
  fs ← get_fs;
  match dirs fs !! d with
  | Some files => put_fs (FS (<[d := <[f := content]> files]> (dirs fs)) (zips fs))
  | None => raise (FileNotFoundError (join d f))
  end.

(** [c in s]. *)
Definition has_char (c : ascii) (s : string) : bool :=
  existsb (Ascii.eqb c) (list_ascii_of_string s).

(** A plain file name: one path component that names a file of the
    directory it is joined to (not empty, not [.] or [..], without path
    separator or NUL, within the file system's 255 bytes). *)
Definition plain_name (s : string) : bool :=
  negb (String.eqb s "") && negb (String.eqb s ".") && negb (String.eqb s "..")
  && negb (has_char "/" s) && negb (has_char "000" s)
  && Nat.leb (String.length s) 255.

(** The part of a path before its first separator. *)
Fixpoint first_component (s : string) : string :=
  match s with
  | EmptyString => EmptyString
  | String c s' =>
      if Ascii.eqb c "/" then EmptyString else String c (first_component s')
  end.

(** The last character of a string, if it has one. *)
Fixpoint last_char (s : string) : option ascii :=
  match s with
  | EmptyString => None
  | String c EmptyString => Some c
  | String _ s' => last_char s'
  end.

(** A relative path that leads through a sub-directory with a plain
    name: [component/rest], not ending in a separator, without NUL and
    well within the path limit. *)
Definition sub_directory_path (s : string) : bool :=
  has_char "/" s && plain_name (first_component s)
  && negb (bool_decide (last_char s = Some "/"%char))
  && negb (has_char "000" s) && Nat.leb (String.length s) 1024.

(** [shutil.copy(os.path.join(sd, sf), os.path.join(dd, df))], with [df]
    taken from a spreadsheet cell.  A plain [df] names a file of [dd].
    A [df] that leads through a sub-directory fails when the copy opens
    its destination, since the directories hold files only:
    [NotADirectoryError] when the first component is a file of [dd],
    [FileNotFoundError] otherwise.  Any other [df] is a path the
    development does not follow. *)
Definition shutil_copy (sd sf dd df : string) : IO unit :=
  content ← read_file sd sf;
  if bool_decide (sd = dd ∧ sf = df) then raise SameFileError
  else if plain_name df then write_file dd df content
  else if sub_directory_path df then
    fs ← get_fs;
    match dirs fs !! dd ≫= fun files => files !! first_component df with
    | Some _ => raise (NotADirectoryError (join dd df))
    | None => raise (FileNotFoundError (join dd df))
    end
  else raise (Unmodelled (join dd df)).

(** [os.listdir(d)]; the order is the file system's. *)
Definition listdir (d : string) : IO (list string) :=
  fs ← get_fs;
  match dirs fs !! d with
  | Some files => mret (map fst (map_to_list files))
  | None => raise (FileNotFoundError d)
  end.

(** [shutil.rmtree(d)]. *)
Definition rmtree (d : string) : IO unit :=
  fs ← get_fs;
  match dirs fs !! d with
  | Some _ => put_fs (FS (delete d (dirs fs)) (zips fs))
  | None => raise (FileNotFoundError d)
  end.

(** [zipfile.ZipFile(z, 'w')]: a new, empty archive replaces any old one. *)
Definition zip_open_w (z : string) : IO unit :=
  fs ← get_fs;
  put_fs (FS (dirs fs) (<[z := ∅]> (zips fs))).

(** [zipf.write(os.path.join(d, f), f)]: the file's content is stored
    under the entry name [f].  The archive is kept as the map from entry
    name to content: the names written in one run are those of
    [os.listdir], which are distinct, and the order of the entries is
    not recorded. *)
Definition zipf_write (z d f : string) : IO unit :=
  content ← read_file d f;
  fs ← get_fs;
  put_fs (FS (dirs fs) (alter (insert f content) z (zips fs))).

(** [os.remove(z)] on an archive. *)
Definition os_remove (z : string) : IO unit :=
  fs ← get_fs;
  match zips fs !! z with
  | Some _ => put_fs (FS (dirs fs) (delete z (zips fs)))
  | None => raise (FileNotFoundError z)
  end.

(** ** [create_excel_download_link]

    The Excel encoder is a black box: the returned buffer is represented by
    the sheet it encodes. *)

Definition df_empty (df : DataFrame) : bool :=
  match df with [] => true | _ :: _ => false end.

Definition create_excel_download_link (df : DataFrame)
    (original_title_col : string) : result (option Sheet) :=
  if df_empty df then Ok None
  else if negb (bool_decide (original_title_col ∈ df_columns)) then
    Raise (ValueError ("Column '" +:+ original_title_col
                         +:+ "' not found in DataFrame"))
  else
    let export_df :=
      sheet_of_columns
        "Original Title" (df_column original_title_col df)
        "Renamed Title" (replicate (length df) (Text "")) in
    Ok (Some export_df).

(** ** [save_uploaded_files] *)

Record UploadedFile := Upload { name : string; getbuffer : bytes }.

Definition save_uploaded_files (uploaded_files : list UploadedFile) : IO string :=
  let temp_dir := "temp_uploaded_files" in
  makedirs_exist_ok temp_dir ;;
  for_each uploaded_files (fun file =>
    write_file temp_dir (name file) (getbuffer file)) ;;
  mret temp_dir.

(** ** [process_and_zip_files] *)

Definition renamed_dir : string := "temp_renamed_files".
Definition zip_name : string := "renamed_files.zip".

(** [str(c)] on a cell. *)
Definition str (c : cell) : string :=
  match c with Text s => s | NaN => "nan" end.

(** [str(row['New Name']) if pd.notna(row['New Name']) and
    row['New Name'] != '' else original_name]. *)
Definition new_name_base (r : row) : string :=
  if notna (new_name r) && negb (bool_decide (new_name r = Text ""))
  then str (new_name r)
  else original_name r.

(** The file name the row's copy is stored under. *)
Definition renamed_file (r : row) : string :=
  let extension := snd (OsPath.splitext (original_name r)) in
  new_name_base r +:+ extension.

(** One pass of the [for index, row in drawings_df.iterrows()] loop. *)
Definition copy_row (temp_dir : string) (r : row) : IO unit :=
  found ← path_exists temp_dir (original_name r);
  if (found : bool)
  then shutil_copy temp_dir (original_name r) renamed_dir (renamed_file r)
  else mret tt.

Definition process_and_zip_files (drawings_df : DataFrame)
    (temp_dir : string) : IO string :=
  makedirs_exist_ok renamed_dir ;;
  for_each drawings_df (copy_row temp_dir) ;;
  zip_open_w zip_name ;;
  files ← listdir renamed_dir;
  for_each files (fun file => zipf_write zip_name renamed_dir file) ;;
  rmtree temp_dir ;;
  rmtree renamed_dir ;;
  mret zip_name.

(** ** The session and the upload handling of [main] *)

Record session_state := Session {
  drawings_df : DataFrame;
  temp_dir_path : option string
}.

(** The state after [main]'s initialisation of ['drawings_df']. *)
Definition new_session : session_state := Session [] None.

(** [df.set_index('Original Name')['New Name']]: labels and values. *)
Definition set_index_new_name (df : DataFrame) : list (string * cell) :=
  map (fun r => (original_name r, new_name r)) df.

(** [Index.get_indexer]: the position of each target label, none when the
    label is absent; it refuses an index with repeated labels. *)
Definition get_indexer (index target : list string)
    : result (list (option nat)) :=
  if bool_decide (NoDup index)
  then Ok (map (fun t => index_of t index) target)
  else Raise InvalidIndexError.

Definition take_nd (values : list cell) (indexer : list (option nat))
    : list cell :=
  map (fun i => match i with Some k => nth k values NaN | None => NaN end)
      indexer.

(** [values.map(mapper)] with a Series as mapper. *)
Definition series_map (values : list string) (mapper : list (string * cell))
    : result (list cell) :=
  match get_indexer (map fst mapper) values with
  | Ok indexer => Ok (take_nd (map snd mapper) indexer)
  | Raise e => Raise e
  end.

(** The body of [if uploaded_files:]. *)
Definition reconcile_uploads (uploaded_files : list UploadedFile)
    (ss : session_state) : IO session_state :=
  if negb (forallb isnull (df_column "New Name" (drawings_df ss))) then
    let existing_names := set_index_new_name (drawings_df ss) in
    let file_names := map name uploaded_files in
    mapped ← lift_result (series_map file_names existing_names);
    let new_df := zip_with Row file_names (map fillna_empty mapped) in
    mret (Session new_df (temp_dir_path ss))
  else
    temp_dir ← save_uploaded_files uploaded_files;
    let file_names := map name uploaded_files in
    mret (Session (map (fun n => Row n (Text "")) file_names) (Some temp_dir)).

Definition upload_block (uploaded_files : list UploadedFile)
    (ss : session_state) : IO session_state :=
  match uploaded_files with
  | [] => mret ss
  | _ :: _ => reconcile_uploads uploaded_files ss
  end.

(** ** The spreadsheet import of [main] *)

Inductive ui : Type :=
  | st_error (msg : string)
  | st_success (msg : string)
  | excel_download (data : option Sheet)
  | zip_download (data : gmap string bytes).

(** What [pd.read_excel] did with the uploaded file. *)
Inductive read_excel_outcome : Type :=
  | ReadRaises (e : string)
  | ReadSheet (imported_df : Sheet).

(** A Python [dict] keyed by cells, in insertion order: setting a key
    that is present replaces its value in place. *)
Fixpoint dict_set (k v : cell) (d : list (cell * cell)) : list (cell * cell) :=
  match d with
  | [] => [(k, v)]
  | (k', v') :: d' =>
      if bool_decide (k' = k) then (k', v) :: d'
      else (k', v') :: dict_set k v d'
  end.

Definition dict (items : list (cell * cell)) : list (cell * cell) :=
  fold_left (fun d kv => dict_set (fst kv) (snd kv) d) items [].

(** [name == original] for a table name and a spreadsheet cell; nothing
    equals a blank cell. *)
Definition name_eq (n : string) (original : cell) : bool :=
  match original with
  | Text s => String.eqb n s
  | NaN => false
  end.

(** One pass of [for original, new_name in name_map.items()]. *)
Definition update_rows (updated_df : DataFrame) (item : cell * cell)
    : DataFrame :=
  let '(original, new_name) := item in
  let matched_rows := map (fun r => name_eq (original_name r) original) updated_df in
  if existsb id matched_rows then
    zip_with (fun r (m : bool) => if m then Row (original_name r) new_name else r)
             updated_df matched_rows
  else updated_df.

Definition has_required_columns (imported_df : Sheet) : bool :=
  bool_decide ("Renamed Title" ∈ columns imported_df)
  && bool_decide ("Original Title" ∈ columns imported_df).

(** The handler of the 'Import Excel File' button: the new session, what
    is shown, and whether [main] returned on the spot. *)
Definition import_block (uploaded_excel : option read_excel_outcome)
    (ss : session_state) : session_state * list ui * bool :=
  match uploaded_excel with
  | Some (ReadRaises e) =>
      (ss, [st_error ("Error reading the Excel file: " +:+ e)], true)
  | Some (ReadSheet imported_df) =>
      if has_required_columns imported_df then
        let name_map :=
          dict (zip (sheet_column "Original Title" imported_df)
                    (sheet_column "Renamed Title" imported_df)) in
        let updated_df := fold_left update_rows name_map (drawings_df ss) in
        (Session updated_df (temp_dir_path ss),
         [st_success "File names updated from the Excel file."], false)
      else
        (ss, [st_error "The uploaded Excel file does not have the required columns."],
         false)
  | None =>
      (ss, [st_error "No Excel file uploaded. Please upload a file to process."],
       false)
  end.

(** ** The export and process handlers, and [main] *)

Definition export_block (ss : session_state) : IO (list ui) :=
  if negb (df_empty (drawings_df ss)) then
    excel_file ← lift_result
      (create_excel_download_link (drawings_df ss) "Original Name");
    mret [excel_download excel_file]
  else mret [st_error "No file names to export."].

(** [os.path.exists(d)] on a directory. *)
Definition dir_exists (d : string) : IO bool :=
  fs ← get_fs; mret (bool_decide (is_Some (dirs fs !! d))).

(** [open(z, "rb")] on an archive. *)
Definition read_zip (z : string) : IO (gmap string bytes) :=
  fs ← get_fs;
  match zips fs !! z with
  | Some entries => mret entries
  | None => raise (FileNotFoundError z)
  end.

Definition process_block (ss : session_state) : IO (list ui) :=
  let missing := st_error "No files uploaded or temporary directory missing." in
  match temp_dir_path ss with
  | Some temp_dir =>
      found ← dir_exists temp_dir;
      if (found : bool) then
        zip_file ← process_and_zip_files (drawings_df ss) temp_dir;
        f ← read_zip zip_file;
        os_remove zip_file ;;
        mret [zip_download f]
      else mret [missing]
  | None => mret [missing]
  end.

Inductive rename_option : Type :=
  | RenameFromTitleBlock
  | RenameFromExcelSheet.

(** The widgets' values in one run of the script. *)
Record widgets := Widgets {
  uploaded_files : list UploadedFile;
  rename_choice : rename_option;
  export_clicked : bool;
  uploaded_excel : option read_excel_outcome;
  import_clicked : bool;
  process_clicked : bool
}.

(** One run of [main]: the session it leaves and what it displays (apart
    from the table itself). *)
Definition main (w : widgets) (ss : session_state)
    : IO (session_state * list ui) :=
  ss ← upload_block (uploaded_files w) ss;
  match rename_choice w with
  | RenameFromTitleBlock =>
      shown ← (if process_clicked w then process_block ss else mret []);
      mret (ss, shown)
  | RenameFromExcelSheet =>
      exported ← (if export_clicked w then export_block ss else mret []);
      let '(ss', imported, returned) :=
        if import_clicked w then import_block (uploaded_excel w) ss
        else (ss, [], false) in
      if (returned : bool) then mret (ss', (exported ++ imported)%list)
      else
        shown ← (if process_clicked w then process_block ss' else mret []);
        mret (ss', (exported ++ imported ++ shown)%list)
  end.

(** ** Sample data *)

Definition png_a : bytes := [Byte.x89; Byte.x50].
Definition jpg_b : bytes := [Byte.xff; Byte.xd8].

Definition no_disk : filesystem := FS ∅ ∅.

Definition staged_ab : filesystem :=
  FS {[ "temp_uploaded_files" := {[ "a.png" := png_a; "b.jpg" := jpg_b ]} ]} ∅.

(** A session whose table has one edit and one blank new name. *)
Definition edited_session : session_state :=
  Session [Row "a.png" (Text "alpha"); Row "b.jpg" NaN]
          (Some "temp_uploaded_files").

(** A session whose table has no edit. *)
Definition unedited_session : session_state :=
  Session [Row "a.png" (Text ""); Row "b.jpg" NaN]
          (Some "temp_uploaded_files").

Definition pdf_c : bytes := [Byte.x25; Byte.x50].

Definition second_batch : list UploadedFile :=
  [Upload "b.jpg" jpg_b; Upload "c.pdf" pdf_c; Upload "a.png" png_a].

(** A filled-in sheet that names [a.png] twice. *)
Definition filled_sheet : Sheet :=
  {| columns := ["Original Title"; "Renamed Title"];
     records := [[Text "a.png"; Text "first"]; [Text "b.jpg"];
                 [Text "a.png"; Text "alpha"]; [Text "other.pdf"; Text "x"]] |}.

(** A sheet without the 'Renamed Title' column. *)
Definition one_column_sheet : Sheet :=
  {| columns := ["Original Title"]; records := [[Text "a.png"]] |}.

(** The end-to-end scenario: two drawings, one renamed through the sheet. *)
Definition drawings_batch : list UploadedFile :=
  [Upload "draw1.pdf" pdf_c; Upload "draw2.pdf" pdf_c].

Definition elevation_sheet : Sheet :=
  {| columns := ["Original Title"; "Renamed Title"];
     records := [[Text "draw1.pdf"; Text "Elevation-A"]; [Text "draw2.pdf"]] |}.

(** Three runs of the script: upload and export, import, process. *)
Definition end_to_end : result (list ui) * filesystem :=
  let excel := RenameFromExcelSheet in
  (main (Widgets drawings_batch excel true None false false) new_session
   ≫= fun '(ss1, _) =>
   main (Widgets drawings_batch excel false (Some (ReadSheet elevation_sheet))
                 true false) ss1
   ≫= fun '(ss2, _) =>
   main (Widgets drawings_batch excel false None false true) ss2
   ≫= fun '(_, shown) => mret shown) no_disk.

(** A table with a repeated original name and no edit, as the upload of
    two files named alike leaves it. *)
Definition repeated_name_table : DataFrame :=
  [Row "a.png" (Text ""); Row "a.png" (Text "")].


(** A table with a row whose file was never staged. *)
Definition table_with_missing : DataFrame :=
  [Row "a.png" (Text "alpha"); Row "gone.pdf" (Text "x"); Row "b.jpg" NaN].


(** ** Notions used to state the properties *)

(** The record exported for a row: its original name and a blank. *)
Definition blank_record (r : row) : list cell := [Text (original_name r); Text ""].

(** The 'Renamed Title' of the last spreadsheet record whose
    'Original Title' is the name [n], if there is one. *)
Fixpoint imported_value (n : string) (items : list (cell * cell)) : option cell :=
  match items with
  | [] => None
  | (original, renamed) :: rest =>
      match imported_value n rest with
      | Some v => Some v
      | None => if name_eq n original then Some renamed else None
      end
  end.

(** A row after an import of the records [items]. *)
Definition imported_row (items : list (cell * cell)) (r : row) : row :=
  match imported_value (original_name r) items with
  | Some v => Row (original_name r) v
  | None => r
  end.

(** The (Original Title, Renamed Title) pairs of a sheet, record by record. *)
Definition title_pairs (sh : Sheet) : list (cell * cell) :=
  zip (sheet_column "Original Title" sh) (sheet_column "Renamed Title" sh).

(** A new name that asks for a rename: a text that is not empty. *)
Definition edited (c : cell) : bool :=
  match c with
  | Text s => negb (String.eqb s "")
  | NaN => false
  end.

(** The table holds at least one non-empty new name. *)
Definition has_edits (df : DataFrame) : bool :=
  existsb (fun r => edited (new_name r)) df.

(** The new name the table holds for the original name [n], if [n] is
    one of its original names. *)
Fixpoint previous_new_name (n : string) (df : DataFrame) : option cell :=
  match df with
  | [] => None
  | r :: df' =>
      if String.eqb n (original_name r) then Some (new_name r)
      else previous_new_name n df'
  end.

(** The replacement name a cell stands for; a blank cell stands for the
    empty name, 'no rename requested'. *)
Definition name_text (c : cell) : string :=
  match c with Text s => s | NaN => "" end.

(** The reconciliation policy in the specification's words: the name is
    carried forward when it was an original name of the previous table
    and that table holds at least one non-empty new name; it is empty
    otherwise. *)
Definition carried_name (previous_table : DataFrame) (n : string) : string :=
  if has_edits previous_table then
    match previous_new_name n previous_table with
    | Some c => name_text c
    | None => ""
    end
  else "".

Definition reconciled_row (previous_table : DataFrame) (file : UploadedFile) : row :=
  Row (name file) (Text (carried_name previous_table (name file))).

(** The output directory after one row's pass, given the content
    [staged] of the staging directory: the staged file, when there is
    one, is stored under the row's output name. *)
Definition copy_staged (staged out : gmap string bytes) (r : row)
    : gmap string bytes :=
  match staged !! original_name r with
  | Some content => <[renamed_file r := content]> out
  | None => out
  end.

(** The output directory after the passes for all rows, in table order. *)
Definition copied_files (staged : gmap string bytes) (df : DataFrame)
    (out : gmap string bytes) : gmap string bytes :=
  fold_left (copy_staged staged) df out.

(** The row's file is in the staging directory. *)
Definition is_staged (staged : gmap string bytes) (r : row) : bool :=
  bool_decide (is_Some (staged !! original_name r)).

(** Every row that has a staged file resolves to a plain file name. *)
Definition plain_outputs (staged : gmap string bytes) (df : DataFrame) : bool :=
  forallb (fun r => implb (is_staged staged r) (plain_name (renamed_file r))) df.

(** The row with a blank new name replaced by the empty text. *)
Definition fillna_row (r : row) : row :=
  Row (original_name r) (fillna_empty (new_name r)).

(** The archive after [zipf.write] ran for the names [l] of files of the
    directory [out]. *)
Definition zipped (out : gmap string bytes) (l : list string)
    (archive : gmap string bytes) : gmap string bytes :=
  fold_left (fun a f => match out !! f with
                        | Some content => <[f := content]> a
                        | None => a
                        end) l archive.

(** The content of the last file of the batch that is named [n], if the
    batch has one. *)
Fixpoint last_upload (n : string) (files : list UploadedFile) : option bytes :=
  match files with
  | [] => None
  | file :: rest =>
      match last_upload n rest with
      | Some content => Some content
      | None => if bool_decide (name file = n) then Some (getbuffer file) else None
      end
  end.

(** A directory after the batch's files were written into it, in order. *)
Definition written (files : list UploadedFile) (dir : gmap string bytes)
    : gmap string bytes :=
  fold_left (fun d file => <[name file := getbuffer file]> d) files dir.

(** The content stored under the output name [k] by the last row of the
    table that has a staged file and resolves to [k], if there is one. *)
Fixpoint last_copy (staged : gmap string bytes) (df : DataFrame) (k : string)
    : option bytes :=
  match df with
  | [] => None
  | r :: rest =>
      match last_copy staged rest k with
      | Some content => Some content
      | None =>
          if bool_decide (renamed_file r = k) then staged !! original_name r
          else None
      end
  end.

(** The message of the 'Process Rename' handler when there is nothing to
    process. *)
Definition nothing_staged : ui :=
  st_error "No files uploaded or temporary directory missing.".

(** * Properties *)

(** ** Sample evaluations *)

Example splitext_png : OsPath.splitext "a.png" = ("a", ".png").
Proof. reflexivity. Qed.
Example splitext_two_dots : OsPath.splitext "plan.v2.pdf" = ("plan.v2", ".pdf").
Proof. reflexivity. Qed.
Example splitext_hidden : OsPath.splitext ".png" = (".png", "").
Proof. reflexivity. Qed.
Example splitext_none : OsPath.splitext "README" = ("README", "").
Proof. reflexivity. Qed.

Example save_two :
  save_uploaded_files [Upload "a.png" png_a; Upload "b.jpg" jpg_b] no_disk
  = (Ok "temp_uploaded_files", staged_ab).
Proof. vm_compute. reflexivity. Qed.

Example import_spec_example :
  fst (fst (import_block
    (Some (ReadSheet {| columns := ["Original Title"; "Renamed Title"];
                        records := [[Text "a.png"; Text "alpha"]] |}))
    (Session [Row "a.png" (Text ""); Row "b.png" (Text "")] None)))
  = Session [Row "a.png" (Text "alpha"); Row "b.png" (Text "")] None.
Proof. reflexivity. Qed.

Example plain_names :
  map plain_name ["alpha.png"; "A/01.png"; "/tmp/x.png"; "..";  ""]
  = [true; false; false; false; false].
Proof. reflexivity. Qed.

Example sub_directory_paths :
  map sub_directory_path
      ["alpha.png"; "A/01.png"; "/tmp/x.png"; "../x.png"; "A/"]
  = [false; true; false; false; false].
Proof. reflexivity. Qed.

Example end_to_end_archive :
  end_to_end
  = (Ok [zip_download {[ "Elevation-A.pdf" := pdf_c; "draw2.pdf.pdf" := pdf_c ]}],
     no_disk).
Proof. vm_compute. reflexivity. Qed.

(** ** Export *)

Lemma export_records (df : DataFrame) :
  zip_with (fun x y => [x; y]) (df_column "Original Name" df)
           (replicate (length df) (Text ""))
  = map blank_record df.
Proof.
  unfold df_column. cbn [String.eqb Ascii.eqb Bool.eqb].
  induction df as [|r df IH]; [reflexivity|].
  cbn [map length replicate zip_with]. by rewrite IH.
Qed.

Lemma blank_records_first (df : DataFrame) :
  map (fun rec => nth 0 rec NaN) (map blank_record df)
  = map (fun r => Text (original_name r)) df.
Proof. induction df as [|r df IH]; [reflexivity|]. cbn. by rewrite IH. Qed.

Lemma blank_records_second (df : DataFrame) :
  map (fun rec => nth 1 rec NaN) (map blank_record df)
  = replicate (length df) (Text "").
Proof. induction df as [|r df IH]; [reflexivity|]. cbn. by rewrite IH. Qed.

(** C7. Exporting the empty table gives nothing ([None]); exporting a
    table of [N] rows gives a sheet with the two columns 'Original Title'
    and 'Renamed Title' and [N] records, the first column listing the
    table's original names in table order and the second blank in every
    record, whatever the table's new names are. *)
Theorem export_lists_names_and_blanks (r : row) (df : DataFrame) :
  create_excel_download_link [] "Original Name" = Ok None
  ∧ ∃ sh : Sheet,
      create_excel_download_link (r :: df) "Original Name" = Ok (Some sh)
      ∧ columns sh = ["Original Title"; "Renamed Title"]
      ∧ length (records sh) = length (r :: df)
      ∧ sheet_column "Original Title" sh
        = map (fun r' => Text (original_name r')) (r :: df)
      ∧ sheet_column "Renamed Title" sh
        = replicate (length (r :: df)) (Text "").
Proof.
  split; [reflexivity|].
  exists {| columns := ["Original Title"; "Renamed Title"];
            records := map blank_record (r :: df) |}.
  split.
  - unfold create_excel_download_link, sheet_of_columns.
    cbn [df_empty]. rewrite export_records. reflexivity.
  - split; [reflexivity|]. split; [cbn [records]; by rewrite length_map|].
    unfold sheet_column. cbn [columns records].
    split.
    + change (index_of "Original Title" _) with (Some 0).
      apply blank_records_first.
    + change (index_of "Renamed Title" _) with (Some 1).
      apply blank_records_second.
Qed.

(** ** Import *)

Lemma update_rows_map (df : DataFrame) (k v : cell) :
  update_rows df (k, v)
  = map (fun r => if name_eq (original_name r) k
                  then Row (original_name r) v else r) df.
Proof.
  unfold update_rows.
  assert (Hzip : forall l : DataFrame,
    zip_with (fun r (m : bool) => if m then Row (original_name r) v else r) l
             (map (fun r => name_eq (original_name r) k) l)
    = map (fun r => if name_eq (original_name r) k
                    then Row (original_name r) v else r) l).
  { induction l as [|r l IH]; [reflexivity|]. cbn. by rewrite IH. }
  destruct (existsb id _) eqn:Hany; [apply Hzip|].
  induction df as [|r df IH]; [reflexivity|].
  cbn in Hany. apply orb_false_iff in Hany as [Hr Hdf].
  cbn. unfold id in Hr. rewrite Hr. f_equal. by apply IH.
Qed.

Lemma fold_update_rows (items : list (cell * cell)) (df : DataFrame) :
  fold_left update_rows items df = map (imported_row items) df.
Proof.
  revert df. induction items as [|[k v] items IH]; intros df.
  - cbn. unfold imported_row. cbn. by rewrite map_id.
  - cbn [fold_left]. rewrite IH, update_rows_map, map_map.
    apply map_ext. intros r. unfold imported_row. cbn [imported_value].
    destruct (name_eq (original_name r) k) eqn:Hk; cbn [original_name];
      destruct (imported_value (original_name r) items); reflexivity.
Qed.

Lemma imported_value_snoc (n : string) (items : list (cell * cell)) (k v : cell) :
  imported_value n (items ++ [(k, v)])
  = if name_eq n k then Some v else imported_value n items.
Proof.
  induction items as [|[k' v'] items IH]; cbn.
  - reflexivity.
  - rewrite IH. destruct (name_eq n k); reflexivity.
Qed.

Lemma imported_value_absent (n : string) (k : cell) (d : list (cell * cell)) :
  name_eq n k = true -> k ∉ d.*1 -> imported_value n d = None.
Proof.
  intros Hk. induction d as [|[k' v'] d IH]; intros Hnot; [reflexivity|].
  cbn in *. apply not_elem_of_cons in Hnot as [Hne Hnot].
  rewrite (IH Hnot).
  destruct (name_eq n k') eqn:Hk'; [|reflexivity].
  destruct k as [|s], k' as [|s']; cbn in Hk, Hk'; try discriminate.
  apply String.eqb_eq in Hk, Hk'. congruence.
Qed.

Lemma dict_set_keys (k v : cell) (d : list (cell * cell)) :
  (dict_set k v d).*1 = if bool_decide (k ∈ d.*1) then d.*1 else d.*1 ++ [k].
Proof.
  induction d as [|[k' v'] d IH]; cbn.
  - reflexivity.
  - destruct (decide (k' = k)) as [->|Hne].
    + rewrite !bool_decide_true; [reflexivity| | reflexivity]. apply list_elem_of_here.
    + rewrite (bool_decide_false (k' = k)) by done. cbn. rewrite IH.
      destruct (decide (k ∈ d.*1)) as [Hin|Hnin].
      * rewrite !bool_decide_true; [reflexivity| |done]. by apply list_elem_of_further.
      * rewrite !bool_decide_false; [reflexivity| |done].
        intros Hin. apply elem_of_cons in Hin as [?|?]; congruence.
Qed.

Lemma dict_set_NoDup (k v : cell) (d : list (cell * cell)) :
  NoDup d.*1 -> NoDup (dict_set k v d).*1.
Proof.
  intros Hd. rewrite dict_set_keys. case_bool_decide; [done|].
  apply NoDup_app. split; [done|]. split.
  - intros x Hx Hx'. apply list_elem_of_singleton in Hx'. congruence.
  - apply NoDup_singleton.
Qed.

Lemma imported_value_dict_set (n : string) (k v : cell) (d : list (cell * cell)) :
  NoDup d.*1 ->
  imported_value n (dict_set k v d)
  = if name_eq n k then Some v else imported_value n d.
Proof.
  induction d as [|[k' v'] d IH]; intros Hd; cbn.
  - reflexivity.
  - apply NoDup_cons in Hd as [Hk' Hd]. cbn in Hk'.
    case_bool_decide as Heq; cbn.
    + subst k'. destruct (name_eq n k) eqn:Hk.
      * by rewrite (imported_value_absent n k d Hk Hk').
      * reflexivity.
    + rewrite (IH Hd). destruct (name_eq n k); reflexivity.
Qed.

Lemma dict_snoc (items : list (cell * cell)) (k v : cell) :
  dict (items ++ [(k, v)]) = dict_set k v (dict items).
Proof. unfold dict. by rewrite fold_left_app. Qed.

Lemma dict_NoDup (items : list (cell * cell)) : NoDup (dict items).*1.
Proof.
  induction items as [|[k v] items IH] using rev_ind.
  - apply NoDup_nil_2.
  - rewrite dict_snoc. by apply dict_set_NoDup.
Qed.

(** The dictionary built from the records maps a name to the value of
    the name's last record. *)
Lemma imported_value_dict (n : string) (items : list (cell * cell)) :
  imported_value n (dict items) = imported_value n items.
Proof.
  induction items as [|[k v] items IH] using rev_ind; [reflexivity|].
  rewrite dict_snoc, imported_value_dict_set by apply dict_NoDup.
  by rewrite imported_value_snoc, IH.
Qed.

Lemma has_required_columns_spec (sh : Sheet) :
  has_required_columns sh = true
  <-> "Original Title" ∈ columns sh ∧ "Renamed Title" ∈ columns sh.
Proof.
  unfold has_required_columns. rewrite andb_true_iff, !bool_decide_eq_true.
  tauto.
Qed.

(** C5. When the parsed spreadsheet has both required columns, the import
    succeeds and every row of the table whose original name is the
    'Original Title' of some record gets the 'Renamed Title' of the last
    such record as its new name (a blank or empty one included), while
    every other row is left as it was. *)
Theorem import_overwrites_matching_rows (sh : Sheet) (ss : session_state) :
  "Original Title" ∈ columns sh ->
  "Renamed Title" ∈ columns sh ->
  import_block (Some (ReadSheet sh)) ss
  = (Session (map (imported_row (title_pairs sh)) (drawings_df ss))
             (temp_dir_path ss),
     [st_success "File names updated from the Excel file."], false).
Proof.
  intros Ho Hr. unfold import_block.
  rewrite (proj2 (has_required_columns_spec sh) (conj Ho Hr)).
  rewrite fold_update_rows. do 3 f_equal.
  apply map_ext. intros r. unfold imported_row, title_pairs.
  by rewrite imported_value_dict.
Qed.

(** C6. When the parsed spreadsheet lacks one of the two required columns,
    the import returns normally with the column error displayed and the
    session, so the table, exactly as it was. *)
Theorem import_missing_column_keeps_table (sh : Sheet) (ss : session_state) :
  ¬ ("Original Title" ∈ columns sh ∧ "Renamed Title" ∈ columns sh) ->
  import_block (Some (ReadSheet sh)) ss
  = (ss, [st_error "The uploaded Excel file does not have the required columns."],
     false).
Proof.
  intros Hmiss. unfold import_block.
  destruct (has_required_columns sh) eqn:Hc; [|reflexivity].
  apply has_required_columns_spec in Hc. contradiction.
Qed.

(** ** Upload handling and reconciliation *)

Ltac io_unfold :=
  unfold mbind, IO_bind, mret, IO_ret, lift_result, raise, get_fs, put_fs.

Section Primitives.
Context (D Z : gmap string (gmap string bytes)).

Lemma bind_run {A B} (m : IO A) (k : A -> IO B) (fs : filesystem) :
  (m ≫= k) fs
  = match m fs with
    | (Ok a, fs') => k a fs'
    | (Raise e, fs') => (Raise e, fs')
    end.
Proof. reflexivity. Qed.

Lemma makedirs_run (d : string) :
  makedirs_exist_ok d (FS D Z)
  = (Ok tt, FS (<[d := default ∅ (D !! d)]> D) Z).
Proof.
  unfold makedirs_exist_ok. io_unfold. cbn [dirs zips].
  destruct (D !! d) as [c|] eqn:Hd; cbn [default]; [|reflexivity].
  by rewrite insert_id.
Qed.

Lemma write_file_run (d f : string) (c : bytes) (files : gmap string bytes) :
  D !! d = Some files ->
  write_file d f c (FS D Z) = (Ok tt, FS (<[d := <[f := c]> files]> D) Z).
Proof. intros Hd. unfold write_file. io_unfold. cbn [dirs zips]. by rewrite Hd. Qed.

Lemma read_file_run (d f : string) (c : bytes) (files : gmap string bytes) :
  D !! d = Some files -> files !! f = Some c ->
  read_file d f (FS D Z) = (Ok c, FS D Z).
Proof.
  intros Hd Hf. unfold read_file. io_unfold. cbn [dirs zips].
  by rewrite Hd, Hf.
Qed.

Lemma path_exists_run (d f : string) :
  path_exists d f (FS D Z)
  = (Ok (bool_decide (is_Some (D !! d ≫= fun files => files !! f))), FS D Z).
Proof.
  unfold path_exists. io_unfold. cbn [dirs zips].
  destruct (D !! d) as [files|]; reflexivity.
Qed.

Lemma rmtree_run (d : string) (files : gmap string bytes) :
  D !! d = Some files -> rmtree d (FS D Z) = (Ok tt, FS (delete d D) Z).
Proof. intros Hd. unfold rmtree. io_unfold. cbn [dirs zips]. by rewrite Hd. Qed.

Lemma listdir_run (d : string) (files : gmap string bytes) :
  D !! d = Some files ->
  listdir d (FS D Z) = (Ok (map fst (map_to_list files)), FS D Z).
Proof. intros Hd. unfold listdir. io_unfold. cbn [dirs zips]. by rewrite Hd. Qed.

Lemma zip_open_run (z : string) :
  zip_open_w z (FS D Z) = (Ok tt, FS D (<[z := ∅]> Z)).
Proof. reflexivity. Qed.

Lemma zipf_write_run (z d f : string) (c : bytes) (files : gmap string bytes) :
  D !! d = Some files -> files !! f = Some c ->
  zipf_write z d f (FS D Z) = (Ok tt, FS D (alter (insert f c) z Z)).
Proof.
  intros Hd Hf. unfold zipf_write. rewrite bind_run.
  rewrite (read_file_run d f c files Hd Hf). reflexivity.
Qed.
End Primitives.

Lemma write_files_into_dir (files : list UploadedFile) (d : string)
    (content : gmap string bytes) (D : gmap string (gmap string bytes))
    (Z : gmap string (gmap string bytes)) :
  ∃ content',
    for_each files (fun file => write_file d (name file) (getbuffer file))
             (FS (<[d := content]> D) Z)
    = (Ok tt, FS (<[d := content']> D) Z).
Proof.
  revert content. induction files as [|f files IH]; intros content.
  - exists content. reflexivity.
  - destruct (IH (<[name f := getbuffer f]> content)) as [content' Hc].
    exists content'. cbn [for_each]. rewrite bind_run.
    rewrite (write_file_run _ _ d _ _ content) by apply lookup_insert_eq.
    rewrite insert_insert_eq. exact Hc.
Qed.

(** Saving an upload batch always succeeds and names the staging directory. *)
Lemma save_uploaded_files_ok (files : list UploadedFile) (fs : filesystem) :
  ∃ fs', save_uploaded_files files fs = (Ok "temp_uploaded_files", fs').
Proof.
  destruct fs as [D Z]. unfold save_uploaded_files.
  rewrite bind_run, makedirs_run.
  destruct (write_files_into_dir files "temp_uploaded_files"
              (default ∅ (D !! "temp_uploaded_files")) D Z) as [content' Hw].
  rewrite bind_run, Hw. eexists. reflexivity.
Qed.

Lemma take_indexed (df : DataFrame) (n : string) :
  match index_of n (map fst (set_index_new_name df)) with
  | Some k => nth k (map snd (set_index_new_name df)) NaN
  | None => NaN
  end
  = default NaN (previous_new_name n df).
Proof.
  induction df as [|r df IH]; [reflexivity|].
  cbn. destruct (String.eqb n (original_name r)); [reflexivity|].
  rewrite <- IH. destruct (index_of n _); reflexivity.
Qed.

Lemma series_map_unique (df : DataFrame) (names : list string) :
  NoDup (map original_name df) ->
  series_map names (set_index_new_name df)
  = Ok (map (fun n => default NaN (previous_new_name n df)) names).
Proof.
  intros Hu. unfold series_map, get_indexer.
  rewrite bool_decide_true.
  2:{ unfold set_index_new_name. rewrite map_map. exact Hu. }
  f_equal. unfold take_nd. rewrite map_map.
  apply map_ext. intros n. apply take_indexed.
Qed.

Lemma zip_rows (files : list UploadedFile) (f : string -> cell) :
  zip_with Row (map name files) (map fillna_empty (map f (map name files)))
  = map (fun file => Row (name file) (fillna_empty (f (name file)))) files.
Proof.
  induction files as [|x files IH]; [reflexivity|]. cbn. by rewrite IH.
Qed.

Lemma all_null_no_edits (df : DataFrame) :
  forallb isnull (map new_name df) = true -> has_edits df = false.
Proof.
  unfold has_edits. induction df as [|r df IH]; [reflexivity|].
  cbn. intros H. apply andb_true_iff in H as [Hr Hdf].
  rewrite (IH Hdf). destruct (new_name r); [reflexivity|discriminate].
Qed.

Lemma no_edits_blank (df : DataFrame) (n : string) (c : cell) :
  has_edits df = false -> previous_new_name n df = Some c -> name_text c = "".
Proof.
  unfold has_edits. induction df as [|r df IH]; [discriminate|].
  cbn. intros H. apply orb_false_iff in H as [Hr Hdf].
  destruct (String.eqb n (original_name r)).
  - intros [= <-]. destruct (new_name r) as [|s]; [reflexivity|].
    cbn in Hr. apply negb_false_iff, String.eqb_eq in Hr. exact Hr.
  - by apply IH.
Qed.

Lemma fillna_carried (df : DataFrame) (n : string) :
  fillna_empty (default NaN (previous_new_name n df)) = Text (carried_name df n).
Proof.
  unfold carried_name. destruct (has_edits df) eqn:He.
  - destruct (previous_new_name n df) as [[|s]|]; reflexivity.
  - destruct (previous_new_name n df) as [c|] eqn:Hp; [|reflexivity].
    pose proof (no_edits_blank df n c He Hp) as Hc.
    destruct c; cbn in *; by subst.
Qed.

Lemma blank_no_edits (df : DataFrame) :
  Forall (fun r => new_name r = NaN ∨ new_name r = Text "") df ->
  has_edits df = false.
Proof.
  unfold has_edits. induction 1 as [|r df [Hr|Hr] _ IH]; [reflexivity| |];
    cbn; rewrite Hr; exact IH.
Qed.

(** The table reconciliation leaves, whichever branch runs. *)
Lemma reconcile_uploads_table (files : list UploadedFile) (ss : session_state)
    (fs : filesystem) :
  NoDup (map original_name (drawings_df ss)) ->
  ∃ tdp fs',
    reconcile_uploads files ss fs
    = (Ok (Session (map (reconciled_row (drawings_df ss)) files) tdp), fs').
Proof.
  intros Hu. unfold reconcile_uploads, df_column. cbn [String.eqb Ascii.eqb Bool.eqb].
  destruct (forallb isnull (map new_name (drawings_df ss))) eqn:Hnull; cbn [negb].
  - destruct (save_uploaded_files_ok files fs) as [fs' Hs].
    exists (Some "temp_uploaded_files"), fs'. io_unfold. rewrite Hs.
    do 3 f_equal. rewrite map_map. apply map_ext. intros f.
    unfold reconciled_row, carried_name.
    by rewrite (all_null_no_edits _ Hnull).
  - exists (temp_dir_path ss), fs. io_unfold.
    rewrite (series_map_unique _ _ Hu), zip_rows.
    do 3 f_equal. apply map_ext. intros f.
    unfold reconciled_row. by rewrite fillna_carried.
Qed.

(** Reconciliation on a table whose original names are distinct, which
    is where the code keeps what C3 says: it succeeds and leaves a table
    with exactly one row per uploaded file, in upload order; the row's
    new name is the one carried forward from the previous table when the
    file's name was an original name there and the previous table holds
    at least one non-empty new name, and is the empty text otherwise. *)
Theorem reconcile_carries_names_forward (files : list UploadedFile)
    (ss : session_state) (fs : filesystem) :
  NoDup (map original_name (drawings_df ss)) ->
  ∃ ss' fs',
    reconcile_uploads files ss fs = (Ok ss', fs')
    ∧ map original_name (drawings_df ss') = map name files
    ∧ drawings_df ss'
      = map (fun file =>
               Row (name file)
                   (Text (carried_name (drawings_df ss) (name file)))) files.
Proof.
  intros Hu.
  destruct (reconcile_uploads_table files ss fs Hu) as (tdp & fs' & Hr).
  eexists _, fs'. split; [exact Hr|]. cbn [drawings_df].
  split; [|reflexivity].
  rewrite map_map. reflexivity.
Qed.

(** Reconciliation of an unedited table whose original names are
    distinct, which is where the code keeps what C4 says: when the
    previous table holds no non-empty new name, reconciling it with an
    upload batch leaves the table of exactly the batch's names, in
    order, each with the empty new name, also for names the previous
    table had. *)
Theorem reconcile_unedited_table_is_fresh (files : list UploadedFile)
    (ss : session_state) (fs : filesystem) :
  NoDup (map original_name (drawings_df ss)) ->
  Forall (fun r => new_name r = NaN ∨ new_name r = Text "") (drawings_df ss) ->
  ∃ ss' fs',
    reconcile_uploads files ss fs = (Ok ss', fs')
    ∧ drawings_df ss' = map (fun file => Row (name file) (Text "")) files.
Proof.
  intros Hu Hblank.
  destruct (reconcile_uploads_table files ss fs Hu) as (tdp & fs' & Hr).
  eexists _, fs'. split; [exact Hr|]. cbn [drawings_df].
  apply map_ext. intros f. unfold reconciled_row, carried_name.
  by rewrite (blank_no_edits _ Hblank).
Qed.

(** ** The materializer *)

Lemma sub_directory_not_plain (s : string) :
  sub_directory_path s = true -> plain_name s = false.
Proof.
  unfold sub_directory_path, plain_name. intros H.
  repeat (apply andb_true_iff in H as [H ?]). rewrite H.
  by rewrite !andb_false_r.
Qed.

Section Materializer.
Context (temp_dir : string) (staged : gmap string bytes).
Context (D Z : gmap string (gmap string bytes)).
Hypothesis temp_dir_staged : D !! temp_dir = Some staged.
Hypothesis temp_dir_ne : temp_dir ≠ renamed_dir.

Lemma staging_kept (out : gmap string bytes) :
  <[renamed_dir := out]> D !! temp_dir = Some staged.
Proof. by rewrite lookup_insert_ne. Qed.

(** A row without a staged file: the pass does nothing. *)
Lemma copy_row_missing (out : gmap string bytes) (r : row) :
  staged !! original_name r = None ->
  copy_row temp_dir r (FS (<[renamed_dir := out]> D) Z)
  = (Ok tt, FS (<[renamed_dir := out]> D) Z).
Proof.
  intros Hs. unfold copy_row.
  rewrite bind_run, path_exists_run, staging_kept.
  cbn [mbind option_bind]. rewrite Hs.
  rewrite bool_decide_false by (by intros [? ?]). reflexivity.
Qed.

(** The copy of a staged file, up to the choice on the output name. *)
Lemma copy_row_staged (out : gmap string bytes) (r : row) (content : bytes) :
  staged !! original_name r = Some content ->
  copy_row temp_dir r (FS (<[renamed_dir := out]> D) Z)
  = (if plain_name (renamed_file r)
     then write_file renamed_dir (renamed_file r) content
     else if sub_directory_path (renamed_file r) then
       match out !! first_component (renamed_file r) with
       | Some _ => raise (NotADirectoryError (join renamed_dir (renamed_file r)))
       | None => raise (FileNotFoundError (join renamed_dir (renamed_file r)))
       end
     else raise (Unmodelled (join renamed_dir (renamed_file r))))
      (FS (<[renamed_dir := out]> D) Z).
Proof.
  intros Hs. unfold copy_row.
  rewrite bind_run, path_exists_run, staging_kept.
  cbn [mbind option_bind]. rewrite Hs, bool_decide_true by eauto.
  unfold shutil_copy. rewrite bind_run.
  rewrite (read_file_run _ _ _ _ content staged (staging_kept out) Hs).
  rewrite bool_decide_false by (intros [? _]; done).
  destruct (plain_name (renamed_file r)); [reflexivity|].
  destruct (sub_directory_path (renamed_file r)); [|reflexivity].
  rewrite bind_run. unfold get_fs. cbn [dirs].
  rewrite lookup_insert_eq. cbn [mbind option_bind].
  by destruct (out !! first_component (renamed_file r)).
Qed.

Lemma copy_row_plain (out : gmap string bytes) (r : row) (content : bytes) :
  staged !! original_name r = Some content ->
  plain_name (renamed_file r) = true ->
  copy_row temp_dir r (FS (<[renamed_dir := out]> D) Z)
  = (Ok tt, FS (<[renamed_dir := <[renamed_file r := content]> out]> D) Z).
Proof.
  intros Hs Hp. rewrite (copy_row_staged out r content Hs), Hp.
  rewrite (write_file_run _ _ renamed_dir _ _ out) by apply lookup_insert_eq.
  by rewrite insert_insert_eq.
Qed.

(** A staged file whose output name is not plain: the pass does not
    return normally here (the copy raises, or the path is one that is
    not followed), and nothing is written to the directories. *)
Lemma copy_row_fails (out : gmap string bytes) (r : row) (content : bytes) :
  staged !! original_name r = Some content ->
  plain_name (renamed_file r) = false ->
  ∃ e, copy_row temp_dir r (FS (<[renamed_dir := out]> D) Z)
       = (Raise e, FS (<[renamed_dir := out]> D) Z).
Proof.
  intros Hs Hp. rewrite (copy_row_staged out r content Hs), Hp.
  destruct (sub_directory_path (renamed_file r)); [|by eexists].
  destruct (out !! first_component (renamed_file r)); by eexists.
Qed.

Lemma copy_row_sub_directory (out : gmap string bytes) (r : row)
    (content : bytes) :
  staged !! original_name r = Some content ->
  sub_directory_path (renamed_file r) = true ->
  out !! first_component (renamed_file r) = None ->
  copy_row temp_dir r (FS (<[renamed_dir := out]> D) Z)
  = (Raise (FileNotFoundError (join renamed_dir (renamed_file r))),
     FS (<[renamed_dir := out]> D) Z).
Proof.
  intros Hs Hsub Hnone. rewrite (copy_row_staged out r content Hs).
  by rewrite (sub_directory_not_plain _ Hsub), Hsub, Hnone.
Qed.

Lemma copy_row_run (out : gmap string bytes) (r : row) :
  implb (is_staged staged r) (plain_name (renamed_file r)) = true ->
  copy_row temp_dir r (FS (<[renamed_dir := out]> D) Z)
  = (Ok tt, FS (<[renamed_dir := copy_staged staged out r]> D) Z).
Proof.
  unfold is_staged, copy_staged. intros Hp.
  destruct (staged !! original_name r) as [content|] eqn:Hs.
  - rewrite bool_decide_true in Hp by eauto. cbn in Hp.
    by apply copy_row_plain.
  - by apply copy_row_missing.
Qed.

(** Whatever the row, a pass changes at most the output directory, and
    when it returns it has stored the staged file, if there is one. *)
Lemma copy_row_outcome (out : gmap string bytes) (r : row) :
  ∃ res out',
    copy_row temp_dir r (FS (<[renamed_dir := out]> D) Z)
    = (res, FS (<[renamed_dir := out']> D) Z)
    ∧ (res = Ok tt -> out' = copy_staged staged out r).
Proof.
  unfold copy_staged.
  destruct (staged !! original_name r) as [content|] eqn:Hs.
  - destruct (plain_name (renamed_file r)) eqn:Hp.
    + eexists _, _. split; [by apply copy_row_plain|done].
    + destruct (copy_row_fails out r content Hs Hp) as [e He].
      eexists _, _. split; [exact He|discriminate].
  - eexists _, _. split; [by apply copy_row_missing|done].
Qed.

Lemma copy_rows_run (df : DataFrame) (out : gmap string bytes) :
  plain_outputs staged df = true ->
  for_each df (copy_row temp_dir) (FS (<[renamed_dir := out]> D) Z)
  = (Ok tt, FS (<[renamed_dir := copied_files staged df out]> D) Z).
Proof.
  revert out. induction df as [|r df IH]; intros out Hp; [reflexivity|].
  cbn in Hp. apply andb_true_iff in Hp as [Hr Hp].
  cbn [for_each]. rewrite bind_run, copy_row_run by exact Hr. by apply IH.
Qed.

Lemma copy_rows_outcome (df : DataFrame) (out : gmap string bytes) :
  ∃ res out',
    for_each df (copy_row temp_dir) (FS (<[renamed_dir := out]> D) Z)
    = (res, FS (<[renamed_dir := out']> D) Z)
    ∧ (res = Ok tt -> out' = copied_files staged df out).
Proof.
  revert out. induction df as [|r df IH]; intros out.
  - eexists _, _. split; [reflexivity|done].
  - destruct (copy_row_outcome out r) as (res & out1 & Hrow & Hok).
    cbn [for_each]. rewrite bind_run, Hrow.
    destruct res as [[]|e].
    + rewrite (Hok eq_refl). apply IH.
    + eexists _, _. split; [reflexivity|discriminate].
Qed.

End Materializer.

Lemma zip_entries_run (Dd Z : gmap string (gmap string bytes))
    (out : gmap string bytes) (l : list string) (archive : gmap string bytes) :
  Dd !! renamed_dir = Some out ->
  (forall f, f ∈ l -> is_Some (out !! f)) ->
  for_each l (fun file => zipf_write zip_name renamed_dir file)
           (FS Dd (<[zip_name := archive]> Z))
  = (Ok tt, FS Dd (<[zip_name := zipped out l archive]> Z)).
Proof.
  intros Hd. revert archive. induction l as [|f l IH]; intros archive Hl.
  - reflexivity.
  - destruct (Hl f) as [c Hc]; [apply list_elem_of_here|].
    cbn [for_each]. rewrite bind_run.
    rewrite (zipf_write_run _ _ _ _ _ c out Hd Hc), alter_insert_eq.
    rewrite IH by (intros; apply Hl; by apply list_elem_of_further).
    unfold zipped. cbn [fold_left]. by rewrite Hc.
Qed.

Lemma zipped_lookup (out : gmap string bytes) (l : list string)
    (archive : gmap string bytes) (k : string) :
  zipped out l archive !! k
  = if decide (k ∈ l) then
      match out !! k with Some c => Some c | None => archive !! k end
    else archive !! k.
Proof.
  revert archive. induction l as [|f l IH]; intros archive.
  - rewrite decide_False by apply not_elem_of_nil. reflexivity.
  - unfold zipped in *. cbn [fold_left]. rewrite IH.
    destruct (decide (k = f)) as [->|Hne].
    + rewrite (decide_True (P := f ∈ f :: l)) by apply list_elem_of_here.
      destruct (out !! f) as [c|] eqn:Hf.
      * rewrite lookup_insert_eq. by destruct (decide (f ∈ l)).
      * by destruct (decide (f ∈ l)).
    + assert (Hk : forall (a : gmap string bytes) (c : bytes), <[f := c]> a !! k = a !! k)
        by (intros; by rewrite lookup_insert_ne).
      destruct (decide (k ∈ l)) as [Hin|Hnin].
      * rewrite decide_True by (by apply list_elem_of_further).
        destruct (out !! f); by rewrite ?Hk.
      * rewrite decide_False
          by (intros Hin; apply elem_of_cons in Hin as [?|?]; done).
        destruct (out !! f); by rewrite ?Hk.
Qed.

(** Zipping every file of a directory into a new archive stores the
    directory's content. *)
Lemma zipped_listdir (out : gmap string bytes) :
  zipped out (map fst (map_to_list out)) ∅ = out.
Proof.
  apply map_eq. intros k. rewrite zipped_lookup.
  destruct (out !! k) as [c|] eqn:Hk.
  - rewrite decide_True; [reflexivity|].
    apply list_elem_of_fmap. exists (k, c). split; [reflexivity|].
    by apply elem_of_map_to_list.
  - by destruct (decide _).
Qed.

(** Packaging and cleaning up, once the copies are done. *)
Lemma pack_and_clean_run (temp_dir : string) (staged out : gmap string bytes)
    (D Z : gmap string (gmap string bytes)) :
  D !! temp_dir = Some staged ->
  temp_dir ≠ renamed_dir ->
  (zip_open_w zip_name ;;
   files ← listdir renamed_dir;
   for_each files (fun file => zipf_write zip_name renamed_dir file) ;;
   rmtree temp_dir ;;
   rmtree renamed_dir ;;
   mret zip_name) (FS (<[renamed_dir := out]> D) Z)
  = (Ok zip_name,
     FS (delete renamed_dir (delete temp_dir D)) (<[zip_name := out]> Z)).
Proof.
  intros Ht Hne.
  rewrite bind_run, zip_open_run.
  rewrite bind_run, (listdir_run _ _ renamed_dir out) by apply lookup_insert_eq.
  rewrite bind_run, (zip_entries_run _ _ out).
  2: apply lookup_insert_eq.
  2:{ intros f Hf. apply list_elem_of_fmap in Hf as ([f' c] & -> & Hfc).
      apply elem_of_map_to_list in Hfc. eauto. }
  rewrite zipped_listdir.
  rewrite bind_run, (rmtree_run _ _ temp_dir staged)
    by (by rewrite lookup_insert_ne).
  rewrite bind_run, (rmtree_run _ _ renamed_dir out)
    by (rewrite lookup_delete_ne by done; apply lookup_insert_eq).
  rewrite delete_insert_ne by done.
  by rewrite delete_insert_eq.
Qed.

(** What a run of the materializer does when the staging directory
    exists and the staged rows resolve to plain file names: the archive
    holds the output directory's files after the copies, both directories
    are gone, the rest of the disk is as before. *)
Lemma process_run (drawings_df : DataFrame) (temp_dir : string)
    (staged : gmap string bytes) (D Z : gmap string (gmap string bytes)) :
  D !! temp_dir = Some staged ->
  temp_dir ≠ renamed_dir ->
  plain_outputs staged drawings_df = true ->
  process_and_zip_files drawings_df temp_dir (FS D Z)
  = (Ok zip_name,
     FS (delete renamed_dir (delete temp_dir D))
        (<[zip_name := copied_files staged drawings_df
                         (default ∅ (D !! renamed_dir))]> Z)).
Proof.
  intros Ht Hne Hp. unfold process_and_zip_files.
  rewrite bind_run, makedirs_run.
  rewrite bind_run, (copy_rows_run temp_dir staged D Z Ht Hne) by exact Hp.
  by apply (pack_and_clean_run temp_dir staged).
Qed.

(** Whatever the table, a run that returns has returned the archive's
    name, with the archive written and both directories gone. *)
Lemma process_returns (drawings_df : DataFrame) (temp_dir : string)
    (staged : gmap string bytes) (D Z : gmap string (gmap string bytes))
    (z : string) (fs' : filesystem) :
  D !! temp_dir = Some staged ->
  temp_dir ≠ renamed_dir ->
  process_and_zip_files drawings_df temp_dir (FS D Z) = (Ok z, fs') ->
  z = zip_name
  ∧ fs' = FS (delete renamed_dir (delete temp_dir D))
             (<[zip_name := copied_files staged drawings_df
                              (default ∅ (D !! renamed_dir))]> Z).
Proof.
  intros Ht Hne. unfold process_and_zip_files.
  rewrite bind_run, makedirs_run, bind_run.
  destruct (copy_rows_outcome temp_dir staged D Z Ht Hne drawings_df
              (default ∅ (D !! renamed_dir))) as (res & out' & Hloop & Hok).
  rewrite Hloop. destruct res as [[]|e]; [|discriminate].
  rewrite (Hok eq_refl), (pack_and_clean_run temp_dir staged) by done.
  by intros [= <- <-].
Qed.



Lemma copied_files_lookup (staged : gmap string bytes) (df : DataFrame)
    (out : gmap string bytes) (k : string) :
  copied_files staged df out !! k
  = match last_copy staged df k with
    | Some content => Some content
    | None => out !! k
    end.
Proof.
  unfold copied_files. revert out.
  induction df as [|r df IH]; intros out; [reflexivity|].
  cbn [fold_left last_copy]. rewrite IH.
  destruct (last_copy staged df k); [reflexivity|].
  unfold copy_staged. case_bool_decide as Hk.
  - subst. destruct (staged !! original_name r); [apply lookup_insert_eq|].
    reflexivity.
  - destruct (staged !! original_name r); [by apply lookup_insert_ne|].
    reflexivity.
Qed.



Lemma renamed_file_fillna (r : row) : renamed_file (fillna_row r) = renamed_file r.
Proof. destruct r as [n [|s]]; reflexivity. Qed.

Lemma copy_row_fillna (temp_dir : string) (r : row) (fs : filesystem) :
  copy_row temp_dir (fillna_row r) fs = copy_row temp_dir r fs.
Proof. unfold copy_row. rewrite renamed_file_fillna. reflexivity. Qed.

Lemma copy_rows_fillna (temp_dir : string) (df : DataFrame) (fs : filesystem) :
  for_each (map fillna_row df) (copy_row temp_dir) fs
  = for_each df (copy_row temp_dir) fs.
Proof.
  revert fs. induction df as [|r df IH]; intros fs; [reflexivity|].
  cbn [map for_each]. rewrite !bind_run, copy_row_fillna.
  destruct (copy_row temp_dir r fs) as [[[]|e] fs']; [apply IH|reflexivity].
Qed.

(** C10. A row whose new name is blank (NaN) is handled as the row with
    the empty new name: the base name is the original name, the output
    file name is the one computed for the empty new name, and a run on a
    table gives the same result and the same disk as the run on the table
    with every blank new name replaced by the empty text. *)
Theorem blank_new_name_counts_as_empty (n : string) (df : DataFrame)
    (temp_dir : string) (fs : filesystem) :
  new_name_base (Row n NaN) = n
  ∧ renamed_file (Row n NaN) = renamed_file (Row n (Text ""))
  ∧ process_and_zip_files (map fillna_row df) temp_dir fs
    = process_and_zip_files df temp_dir fs.
Proof.
  split; [reflexivity|]. split; [reflexivity|].
  unfold process_and_zip_files. rewrite !(bind_run (makedirs_exist_ok _)).
  destruct (makedirs_exist_ok renamed_dir fs) as [[[]|e] fs1]; [|reflexivity].
  rewrite !(bind_run (for_each _ _)), copy_rows_fillna. reflexivity.
Qed.

(** The output name of a row with a non-empty new name: the new name
    followed by the extension of the original name. *)
Lemma renamed_file_of_new_name (n s : string) :
  s ≠ "" ->
  renamed_file (Row n (Text s)) = s +:+ snd (OsPath.splitext n).
Proof.
  intros Hs. unfold renamed_file, new_name_base.
  cbn [new_name original_name notna isnull negb andb].
  rewrite bool_decide_false by congruence. reflexivity.
Qed.

(** The output name of a row with no new name: the original name followed
    once more by its own extension. *)
Lemma renamed_file_unrenamed (n : string) :
  renamed_file (Row n (Text "")) = n +:+ snd (OsPath.splitext n).
Proof. reflexivity. Qed.

(** C1 (on the code). On the table [("a.png","alpha"); ("b.jpg","")] with
    both files staged, the archive holds the entries [alpha.png] and
    [b.jpg.jpg]: the renamed file gets its new name and the original
    extension, the file without a new name gets its original name with
    the extension appended a second time, and there is no entry [b.jpg]. *)
Theorem unrenamed_file_gets_extension_twice :
  renamed_file (Row "a.png" (Text "alpha")) = "alpha.png"
  ∧ renamed_file (Row "b.jpg" (Text "")) = "b.jpg.jpg"
  ∧ process_and_zip_files
      [Row "a.png" (Text "alpha"); Row "b.jpg" (Text "")]
      "temp_uploaded_files" staged_ab
    = (Ok "renamed_files.zip",
       FS ∅ {[ "renamed_files.zip" :=
                 {[ "alpha.png" := png_a; "b.jpg.jpg" := jpg_b ]} ]}).
Proof. split; [reflexivity|]. split; [reflexivity|]. vm_compute. reflexivity. Qed.

(** C2 (on the code). In a new session, uploading [a.png] stages it; when
    the batch then becomes [a.png; b.jpg], the table lists both files but
    the run writes nothing: the disk is unchanged and the staging
    directory still holds [a.png] only. *)
Theorem later_upload_is_not_staged :
  ∃ ss1 fs1 ss2,
    upload_block [Upload "a.png" png_a] new_session no_disk = (Ok ss1, fs1)
    ∧ upload_block [Upload "a.png" png_a; Upload "b.jpg" jpg_b] ss1 fs1
      = (Ok ss2, fs1)
    ∧ drawings_df ss2 = [Row "a.png" (Text ""); Row "b.jpg" (Text "")]
    ∧ dirs fs1 !! "temp_uploaded_files" = Some {[ "a.png" := png_a ]}.
Proof.
  eexists _, _, _. split; [vm_compute; reflexivity|].
  split; [vm_compute; reflexivity|]. split; vm_compute; reflexivity.
Qed.

(** Whenever the table holds a new name that is not blank (the empty text
    counts), the upload handling leaves the disk as it is. *)
Lemma reconcile_existing_writes_nothing (files : list UploadedFile)
    (ss : session_state) (fs : filesystem) :
  forallb isnull (map new_name (drawings_df ss)) = false ->
  snd (reconcile_uploads files ss fs) = fs.
Proof.
  intros Hnull. unfold reconcile_uploads, df_column.
  cbn [String.eqb Ascii.eqb Bool.eqb]. rewrite Hnull. cbn [negb].
  rewrite bind_run. unfold lift_result.
  destruct (series_map _ _); reflexivity.
Qed.

(** ** Inputs on which the code departs from the claims *)

(** C3 (on the code). Uploading two files named [a.png] in a new session
    leaves a table with that name twice, through the fresh-start branch;
    reconciling this table with the same batch, as the next run of the
    script does, produces no table: the preserving branch raises
    [InvalidIndexError]. *)
Lemma repeated_name_table_is_not_reconciled :
  ∃ ss1 fs1,
    upload_block [Upload "a.png" png_a; Upload "a.png" jpg_b]
                 new_session no_disk = (Ok ss1, fs1)
    ∧ drawings_df ss1 = [Row "a.png" (Text ""); Row "a.png" (Text "")]
    ∧ reconcile_uploads [Upload "a.png" png_a; Upload "a.png" jpg_b] ss1 fs1
      = (Raise InvalidIndexError, fs1)
    ∧ ¬ ∃ ss' fs',
          reconcile_uploads [Upload "a.png" png_a; Upload "a.png" jpg_b] ss1 fs1
          = (Ok ss', fs').
Proof.
  set (files := [Upload "a.png" png_a; Upload "a.png" jpg_b]).
  set (ss1 := Session repeated_name_table (Some "temp_uploaded_files")).
  set (fs1 := FS {[ "temp_uploaded_files" := {[ "a.png" := jpg_b ]} ]} ∅).
  assert (Hraise : reconcile_uploads files ss1 fs1 = (Raise InvalidIndexError, fs1))
    by (vm_compute; reflexivity).
  exists ss1, fs1. split; [vm_compute; reflexivity|].
  split; [reflexivity|]. split; [exact Hraise|].
  intros (ss' & fs' & Hok). rewrite Hraise in Hok. discriminate.
Qed.

(** C4 (on the code). The table [("a.png",""); ("a.png","")] holds no
    non-empty new name, yet reconciling it with the batch [a.png] yields
    no table: the empty texts are not null, so the preserving branch
    runs and raises [InvalidIndexError]. *)
Lemma unedited_repeated_name_table_raises :
  Forall (fun r => new_name r = NaN ∨ new_name r = Text "") repeated_name_table
  ∧ reconcile_uploads [Upload "a.png" png_a]
      (Session repeated_name_table (Some "temp_uploaded_files")) staged_ab
    = (Raise InvalidIndexError, staged_ab)
  ∧ ¬ ∃ ss' fs',
        reconcile_uploads [Upload "a.png" png_a]
          (Session repeated_name_table (Some "temp_uploaded_files")) staged_ab
        = (Ok ss', fs').
Proof.
  assert (Hraise : reconcile_uploads [Upload "a.png" png_a]
            (Session repeated_name_table (Some "temp_uploaded_files")) staged_ab
          = (Raise InvalidIndexError, staged_ab))
    by (vm_compute; reflexivity).
  split; [apply (bool_decide_unpack _); vm_compute; exact I|].
  split; [exact Hraise|].
  intros (ss' & fs' & Hok). rewrite Hraise in Hok. discriminate.
Qed.


(** ** The theorems at concrete inputs *)

Ltac by_computation := apply (bool_decide_unpack _); vm_compute; exact I.

Lemma reconcile_carries_names_forward_witness :
  NoDup (map original_name (drawings_df edited_session))
  ∧ ∃ ss' fs',
      reconcile_uploads second_batch edited_session staged_ab = (Ok ss', fs')
      ∧ map original_name (drawings_df ss') = map name second_batch
      ∧ drawings_df ss'
        = map (fun file =>
                 Row (name file)
                     (Text (carried_name (drawings_df edited_session)
                                         (name file)))) second_batch.
Proof.
  assert (Hu : NoDup (map original_name (drawings_df edited_session)))
    by by_computation.
  split; [exact Hu|].
  exact (reconcile_carries_names_forward second_batch edited_session staged_ab Hu).
Defined.

Lemma reconcile_unedited_table_is_fresh_witness :
  NoDup (map original_name (drawings_df unedited_session))
  ∧ Forall (fun r => new_name r = NaN ∨ new_name r = Text "")
           (drawings_df unedited_session)
  ∧ ∃ ss' fs',
      reconcile_uploads second_batch unedited_session staged_ab = (Ok ss', fs')
      ∧ drawings_df ss' = map (fun file => Row (name file) (Text "")) second_batch.
Proof.
  assert (Hu : NoDup (map original_name (drawings_df unedited_session)))
    by by_computation.
  assert (Hb : Forall (fun r => new_name r = NaN ∨ new_name r = Text "")
                      (drawings_df unedited_session))
    by by_computation.
  split; [exact Hu|]. split; [exact Hb|].
  exact (reconcile_unedited_table_is_fresh second_batch unedited_session
           staged_ab Hu Hb).
Defined.

Lemma import_overwrites_matching_rows_witness :
  "Original Title" ∈ columns filled_sheet
  ∧ "Renamed Title" ∈ columns filled_sheet
  ∧ import_block (Some (ReadSheet filled_sheet)) edited_session
    = (Session (map (imported_row (title_pairs filled_sheet))
                    (drawings_df edited_session))
               (temp_dir_path edited_session),
       [st_success "File names updated from the Excel file."], false).
Proof.
  assert (Ho : "Original Title" ∈ columns filled_sheet) by by_computation.
  assert (Hr : "Renamed Title" ∈ columns filled_sheet) by by_computation.
  split; [exact Ho|]. split; [exact Hr|].
  exact (import_overwrites_matching_rows filled_sheet edited_session Ho Hr).
Defined.

Lemma import_missing_column_keeps_table_witness :
  ¬ ("Original Title" ∈ columns one_column_sheet
     ∧ "Renamed Title" ∈ columns one_column_sheet)
  ∧ import_block (Some (ReadSheet one_column_sheet)) edited_session
    = (edited_session,
       [st_error "The uploaded Excel file does not have the required columns."],
       false).
Proof.
  assert (Hm : ¬ ("Original Title" ∈ columns one_column_sheet
                  ∧ "Renamed Title" ∈ columns one_column_sheet))
    by by_computation.
  split; [exact Hm|].
  exact (import_missing_column_keeps_table one_column_sheet edited_session Hm).
Defined.




(** * Further properties of the code *)

(** ** The extension appended to an output name *)

Lemma append_cons (a : ascii) (s t : string) :
  String a s +:+ t = String a (s +:+ t).
Proof. reflexivity. Qed.

Lemma append_empty_r (s : string) : s +:+ "" = s.
Proof. induction s as [|a s IH]; [reflexivity|]. by rewrite append_cons, IH. Qed.

Lemma substring_whole (s : string) : substring 0 (String.length s) s = s.
Proof. induction s as [|a s IH]; [reflexivity|]. cbn. by rewrite IH. Qed.

Lemma slices_join (k : nat) (p : string) :
  OsPath.slice_to k p +:+ OsPath.slice_from k p = p.
Proof.
  unfold OsPath.slice_to, OsPath.slice_from. revert k.
  induction p as [|a p IH]; intros k.
  - by destruct k.
  - destruct k as [|k].
    + cbn [substring]. change (String.length (String a p) - 0)
        with (S (String.length p)).
      cbn [substring]. by rewrite substring_whole.
    + cbn [substring String.length Nat.sub]. by rewrite append_cons, IH.
Qed.

Lemma rfind_from_found (c : ascii) (p : string) (i last : Z) :
  OsPath.rfind_from c p i last = last
  ∨ (i <= OsPath.rfind_from c p i last
     ∧ String.get (Z.to_nat (OsPath.rfind_from c p i last - i)) p = Some c)%Z.
Proof.
  revert i last. induction p as [|a p IH]; intros i last; cbn [OsPath.rfind_from].
  - by left.
  - destruct (IH (i + 1)%Z (if Ascii.eqb a c then i else last)) as [Hr|[Hle Hget]].
    + rewrite Hr. destruct (Ascii.eqb a c) eqn:Hac; [|by left].
      right. split; [lia|]. rewrite Z.sub_diag. cbn.
      apply Ascii.eqb_eq in Hac. by subst.
    + right. split; [lia|].
      set (r := OsPath.rfind_from c p (i + 1) _) in *.
      replace (Z.to_nat (r - i)) with (S (Z.to_nat (r - (i + 1)))) by lia.
      exact Hget.
Qed.

Lemma slice_from_head (c : ascii) (k : nat) (p : string) :
  String.get k p = Some c ->
  ∃ rest, OsPath.slice_from k p = String c rest.
Proof.
  unfold OsPath.slice_from. revert k.
  induction p as [|a p IH]; intros k Hget.
  - by destruct k.
  - destruct k as [|k].
    + cbn in Hget. injection Hget as ->.
      change (String.length (String c p) - 0) with (S (String.length p)).
      cbn [substring]. eauto.
    + cbn [substring String.length Nat.sub]. apply IH. exact Hget.
Qed.

Lemma rfind_from_absent (c : ascii) (p : string) (i last : Z) :
  (forall k, String.get k p ≠ Some c) ->
  OsPath.rfind_from c p i last = last.
Proof.
  revert i last. induction p as [|a p IH]; intros i last Hno; [reflexivity|].
  cbn [OsPath.rfind_from].
  destruct (Ascii.eqb a c) eqn:Hac.
  - apply Ascii.eqb_eq in Hac. subst. destruct (Hno 0). reflexivity.
  - apply IH. intros k. apply (Hno (S k)).
Qed.

Lemma rfind_lower_bound (c : ascii) (p : string) : (-1 <= OsPath.rfind c p)%Z.
Proof.
  unfold OsPath.rfind.
  destruct (rfind_from_found c p 0 (-1)) as [->|[? _]]; lia.
Qed.

(** X13. The extension the materializer appends is a tail of the original
    name: the original name is a stem followed by the extension, the
    output name is the base name followed by that same extension, and
    the extension is empty or begins with a dot. *)
Theorem output_name_keeps_original_extension (r : row) :
  ∃ stem extension : string,
    original_name r = stem +:+ extension
    ∧ renamed_file r = new_name_base r +:+ extension
    ∧ (extension = "" ∨ ∃ rest, extension = String "." rest).
Proof.
  exists (fst (OsPath.splitext (original_name r))),
         (snd (OsPath.splitext (original_name r))).
  set (p := original_name r).
  split; [|split; [reflexivity|]].
  - symmetry. unfold OsPath.splitext.
    destruct (_ >? _)%Z; [|apply append_empty_r].
    destruct (OsPath.finds_name_char _ _ _); [|apply append_empty_r].
    apply slices_join.
  - unfold OsPath.splitext.
    destruct (_ >? _)%Z eqn:Hgt; [|by left].
    destruct (OsPath.finds_name_char _ _ _); [|by left].
    right. cbn [snd]. apply Z.gtb_lt in Hgt.
    pose proof (rfind_lower_bound "/" p) as Hsep.
    unfold OsPath.rfind in *.
    destruct (rfind_from_found "." p 0 (-1)) as [Hr|[_ Hget]]; [lia|].
    rewrite Z.sub_0_r in Hget. by apply slice_from_head.
Qed.

(** X14. A row whose original name contains no dot gets no extension: its
    output name is exactly the base name (the new name, or the original
    name when there is none). *)
Theorem undotted_name_gets_no_extension (r : row) :
  (forall k, String.get k (original_name r) ≠ Some "."%char) ->
  renamed_file r = new_name_base r.
Proof.
  intros Hno. unfold renamed_file, OsPath.splitext.
  pose proof (rfind_lower_bound "/" (original_name r)) as Hsep.
  assert (Hdot : OsPath.rfind "." (original_name r) = (-1)%Z)
    by (apply rfind_from_absent, Hno).
  rewrite Hdot.
  destruct (_ >? _)%Z eqn:Hgt; [|apply append_empty_r].
  apply Z.gtb_lt in Hgt. lia.
Qed.

Lemma undotted_name_gets_no_extension_witness :
  (forall k, String.get k (original_name (Row "README" (Text "notes")))
             ≠ Some "."%char)
  ∧ renamed_file (Row "README" (Text "notes"))
    = new_name_base (Row "README" (Text "notes")).
Proof.
  assert (Hno : forall k, String.get k (original_name (Row "README" (Text "notes")))
                          ≠ Some "."%char).
  { intros k. do 7 (destruct k as [|k]; [discriminate|]). discriminate. }
  split; [exact Hno|].
  exact (undotted_name_gets_no_extension (Row "README" (Text "notes")) Hno).
Defined.

(** ** Staging an upload batch *)

Lemma write_files_written (files : list UploadedFile) (d : string)
    (content : gmap string bytes) (D Z : gmap string (gmap string bytes)) :
  for_each files (fun file => write_file d (name file) (getbuffer file))
           (FS (<[d := content]> D) Z)
  = (Ok tt, FS (<[d := written files content]> D) Z).
Proof.
  revert content. induction files as [|f files IH]; intros content.
  - reflexivity.
  - cbn [for_each]. rewrite bind_run.
    rewrite (write_file_run _ _ d _ _ content) by apply lookup_insert_eq.
    rewrite insert_insert_eq. apply IH.
Qed.

Lemma save_uploaded_files_run (files : list UploadedFile)
    (D Z : gmap string (gmap string bytes)) :
  save_uploaded_files files (FS D Z)
  = (Ok "temp_uploaded_files",
     FS (<["temp_uploaded_files" :=
             written files (default ∅ (D !! "temp_uploaded_files"))]> D) Z).
Proof.
  unfold save_uploaded_files.
  rewrite bind_run, makedirs_run, bind_run, write_files_written.
  reflexivity.
Qed.

Lemma written_lookup (files : list UploadedFile) (dir : gmap string bytes)
    (n : string) :
  written files dir !! n
  = match last_upload n files with
    | Some content => Some content
    | None => dir !! n
    end.
Proof.
  unfold written. revert dir.
  induction files as [|f files IH]; intros dir; [reflexivity|].
  cbn [fold_left last_upload]. rewrite IH.
  destruct (last_upload n files); [reflexivity|].
  case_bool_decide as Hn.
  - subst. apply lookup_insert_eq.
  - by apply lookup_insert_ne.
Qed.

(** X1. Saving an upload batch returns the staging directory's name and
    leaves that directory holding, under each uploaded name, the content
    of the last file of the batch with that name; files it already held
    under other names stay, and the other directories and the archives
    are untouched. *)
Theorem save_uploaded_files_stages_batch (files : list UploadedFile)
    (D Z : gmap string (gmap string bytes)) :
  ∃ dir : gmap string bytes,
    save_uploaded_files files (FS D Z)
    = (Ok "temp_uploaded_files", FS (<["temp_uploaded_files" := dir]> D) Z)
    ∧ forall n,
        dir !! n
        = match last_upload n files with
          | Some content => Some content
          | None => default ∅ (D !! "temp_uploaded_files") !! n
          end.
Proof.
  eexists. split; [apply save_uploaded_files_run|].
  intros n. apply written_lookup.
Qed.

(** X2. Saving the same batch a second time changes nothing: the disk
    after two saves is the disk after one. *)
Theorem save_uploaded_files_twice (files : list UploadedFile)
    (fs : filesystem) :
  (save_uploaded_files files ≫= fun _ => save_uploaded_files files) fs
  = save_uploaded_files files fs.
Proof.
  destruct fs as [D Z].
  rewrite bind_run, !save_uploaded_files_run.
  rewrite lookup_insert_eq, insert_insert_eq. cbn [default].
  do 3 f_equal. apply map_eq. intros n. rewrite written_lookup.
  unfold id. rewrite written_lookup.
  by destruct (last_upload n files).
Qed.

(** ** The archive the materializer builds *)

(** X3. With the staging directory in place and the rows that have a
    staged file resolving to plain file names, the archive of a run
    holds, under each entry name, the staged content of the last row of
    the table that resolves to that name and has a staged file (a later
    row silently replaces an earlier one); under the other names it
    holds what the output directory already contained before the run,
    if it existed. *)
Theorem archive_entry_is_last_copy (drawings_df : DataFrame)
    (temp_dir : string) (staged : gmap string bytes)
    (D Z : gmap string (gmap string bytes)) :
  D !! temp_dir = Some staged ->
  temp_dir ≠ renamed_dir ->
  plain_outputs staged drawings_df = true ->
  ∃ fs' archive,
    process_and_zip_files drawings_df temp_dir (FS D Z) = (Ok zip_name, fs')
    ∧ zips fs' !! zip_name = Some archive
    ∧ forall k,
        archive !! k
        = match last_copy staged drawings_df k with
          | Some content => Some content
          | None => default ∅ (D !! renamed_dir) !! k
          end.
Proof.
  intros Ht Hne Hp. eexists _, _.
  split; [by apply (process_run _ _ staged)|].
  cbn [zips]. split; [apply lookup_insert_eq|].
  intros k. apply copied_files_lookup.
Qed.

Lemma last_copy_some (staged : gmap string bytes) (df : DataFrame) (k : string) :
  is_Some (last_copy staged df k)
  <-> ∃ r, r ∈ df ∧ is_staged staged r = true ∧ renamed_file r = k.
Proof.
  induction df as [|r df IH]; cbn [last_copy].
  - split; [by intros [? ?]|]. intros (r & Hr & _). by apply elem_of_nil in Hr.
  - split.
    + intros Hsome. destruct (last_copy staged df k) as [c|] eqn:Hl.
      * destruct (proj1 IH) as (r' & Hin & Hst & Hk); [eauto|].
        exists r'. split; [by apply list_elem_of_further|done].
      * case_bool_decide as Hk; [|by destruct Hsome].
        exists r. split; [apply list_elem_of_here|]. split; [|done].
        unfold is_staged. by apply bool_decide_eq_true.
    + intros (r' & Hin & Hst & Hk).
      destruct (last_copy staged df k) as [c|] eqn:Hl; [eauto|].
      apply elem_of_cons in Hin as [->|Hin].
      * rewrite bool_decide_true by done.
        unfold is_staged in Hst. by apply bool_decide_eq_true in Hst.
      * destruct (proj2 IH) as [c Hc]; [eauto|]. discriminate.
Qed.

(** X4. With the staging directory in place, the rows that have a staged
    file resolving to plain file names and no output directory left
    over from an earlier run, the archive's entry names are exactly the
    output names of the rows whose file is staged. *)
Theorem archive_names_are_staged_output_names (drawings_df : DataFrame)
    (temp_dir : string) (staged : gmap string bytes)
    (D Z : gmap string (gmap string bytes)) :
  D !! temp_dir = Some staged ->
  temp_dir ≠ renamed_dir ->
  plain_outputs staged drawings_df = true ->
  D !! renamed_dir = None ->
  ∃ fs' archive,
    process_and_zip_files drawings_df temp_dir (FS D Z) = (Ok zip_name, fs')
    ∧ zips fs' !! zip_name = Some archive
    ∧ forall k,
        is_Some (archive !! k)
        <-> ∃ r, r ∈ drawings_df ∧ is_staged staged r = true
                 ∧ renamed_file r = k.
Proof.
  intros Ht Hne Hp Hout. eexists _, _.
  split; [by apply (process_run _ _ staged)|].
  cbn [zips]. split; [apply lookup_insert_eq|].
  intros k. rewrite copied_files_lookup, Hout. cbn [default].
  rewrite lookup_empty, <- last_copy_some.
  by destruct (last_copy staged drawings_df k).
Qed.

Lemma copy_rows_nothing_staged (temp_dir : string) (df : DataFrame)
    (D Z : gmap string (gmap string bytes)) :
  D !! temp_dir = None ->
  for_each df (copy_row temp_dir) (FS D Z) = (Ok tt, FS D Z).
Proof.
  intros Ht. induction df as [|r df IH]; [reflexivity|].
  cbn [for_each]. rewrite bind_run. unfold copy_row at 1.
  rewrite bind_run, path_exists_run, Ht. exact IH.
Qed.

(** X5. Called on a staging directory that does not exist, the
    materializer raises [FileNotFoundError] when it comes to remove that
    directory; by then it has created the output directory (or kept a
    left-over one) and written the archive of its content, and both stay
    on the disk. *)
Theorem materializer_without_staging_raises (drawings_df : DataFrame)
    (temp_dir : string) (D Z : gmap string (gmap string bytes)) :
  D !! temp_dir = None ->
  temp_dir ≠ renamed_dir ->
  process_and_zip_files drawings_df temp_dir (FS D Z)
  = (Raise (FileNotFoundError temp_dir),
     FS (<[renamed_dir := default ∅ (D !! renamed_dir)]> D)
        (<[zip_name := default ∅ (D !! renamed_dir)]> Z)).
Proof.
  intros Ht Hne. unfold process_and_zip_files.
  set (out := default ∅ (D !! renamed_dir)).
  assert (Ht' : <[renamed_dir := out]> D !! temp_dir = None)
    by (by rewrite lookup_insert_ne).
  rewrite bind_run, makedirs_run. fold out.
  rewrite bind_run, copy_rows_nothing_staged by exact Ht'.
  rewrite bind_run, zip_open_run.
  rewrite bind_run, (listdir_run _ _ renamed_dir out) by apply lookup_insert_eq.
  rewrite bind_run, (zip_entries_run _ _ out).
  2: apply lookup_insert_eq.
  2:{ intros f Hf. apply list_elem_of_fmap in Hf as ([f' c] & -> & Hfc).
      apply elem_of_map_to_list in Hfc. eauto. }
  rewrite zipped_listdir, bind_run.
  unfold rmtree at 1. rewrite bind_run. unfold get_fs. cbn [dirs].
  rewrite Ht'. reflexivity.
Qed.

(** ** The 'Process Rename' handler *)

Lemma dir_exists_run (D Z : gmap string (gmap string bytes)) (d : string) :
  dir_exists d (FS D Z) = (Ok (bool_decide (is_Some (D !! d))), FS D Z).
Proof. reflexivity. Qed.

Lemma read_zip_run (D Z : gmap string (gmap string bytes)) (z : string)
    (entries : gmap string bytes) :
  Z !! z = Some entries -> read_zip z (FS D Z) = (Ok entries, FS D Z).
Proof.
  intros Hz. unfold read_zip. io_unfold. cbn [zips]. by rewrite Hz.
Qed.

Lemma os_remove_run (D Z : gmap string (gmap string bytes)) (z : string)
    (entries : gmap string bytes) :
  Z !! z = Some entries -> os_remove z (FS D Z) = (Ok tt, FS D (delete z Z)).
Proof.
  intros Hz. unfold os_remove. io_unfold. cbn [zips dirs]. by rewrite Hz.
Qed.

Lemma process_block_run (ss : session_state) (temp_dir : string)
    (staged : gmap string bytes) (D Z : gmap string (gmap string bytes)) :
  temp_dir_path ss = Some temp_dir ->
  D !! temp_dir = Some staged ->
  temp_dir ≠ renamed_dir ->
  plain_outputs staged (drawings_df ss) = true ->
  process_block ss (FS D Z)
  = (Ok [zip_download (copied_files staged (drawings_df ss)
                                    (default ∅ (D !! renamed_dir)))],
     FS (delete renamed_dir (delete temp_dir D)) (delete zip_name Z)).
Proof.
  intros Hp Ht Hne Hplain. unfold process_block. rewrite Hp.
  rewrite bind_run, dir_exists_run, bool_decide_true by eauto.
  rewrite bind_run, (process_run _ _ staged) by done.
  rewrite bind_run, (read_zip_run _ _ _ _ (lookup_insert_eq _ _ _)).
  rewrite bind_run, (os_remove_run _ _ _ _ (lookup_insert_eq _ _ _)).
  by rewrite delete_insert_eq.
Qed.

(** A 'Process Rename' that offered an archive has removed the staging
    directory. *)
Lemma process_block_offered (ss : session_state) (temp_dir : string)
    (D Z : gmap string (gmap string bytes)) (archive : gmap string bytes)
    (fs' : filesystem) :
  temp_dir_path ss = Some temp_dir ->
  temp_dir ≠ renamed_dir ->
  process_block ss (FS D Z) = (Ok [zip_download archive], fs') ->
  dirs fs' !! temp_dir = None.
Proof.
  intros Hp Hne. unfold process_block. rewrite Hp.
  rewrite bind_run, dir_exists_run.
  destruct (D !! temp_dir) as [staged|] eqn:Ht.
  - rewrite bool_decide_true by eauto. rewrite bind_run.
    destruct (process_and_zip_files (drawings_df ss) temp_dir (FS D Z))
      as [[z|e] fs1] eqn:Hrun; [|discriminate].
    destruct (process_returns _ _ staged D Z z fs1 Ht Hne Hrun) as [-> ->].
    rewrite bind_run, (read_zip_run _ _ _ _ (lookup_insert_eq _ _ _)).
    rewrite bind_run, (os_remove_run _ _ _ _ (lookup_insert_eq _ _ _)).
    intros [= _ <-]. cbn [dirs].
    rewrite lookup_delete_ne by done. apply lookup_delete_eq.
  - rewrite bool_decide_false by (by intros [? ?]). discriminate.
Qed.

Lemma process_block_nothing (ss : session_state) (temp_dir : string)
    (D Z : gmap string (gmap string bytes)) :
  temp_dir_path ss = Some temp_dir ->
  D !! temp_dir = None ->
  process_block ss (FS D Z) = (Ok [nothing_staged], FS D Z).
Proof.
  intros Hp Ht. unfold process_block. rewrite Hp.
  rewrite bind_run, dir_exists_run, Ht.
  rewrite bool_decide_false by (by intros [? ?]). reflexivity.
Qed.

(** X6. With the staging directory in place and the rows that have a
    staged file resolving to plain file names, 'Process Rename' offers
    the archive for download and leaves neither the two directories nor
    the zip file behind; a second 'Process Rename' on the disk it leaves
    reports that nothing is staged and changes nothing. *)
Theorem process_rename_works_once (ss : session_state) (temp_dir : string)
    (staged : gmap string bytes) (D Z : gmap string (gmap string bytes)) :
  temp_dir_path ss = Some temp_dir ->
  D !! temp_dir = Some staged ->
  temp_dir ≠ renamed_dir ->
  plain_outputs staged (drawings_df ss) = true ->
  ∃ archive fs',
    process_block ss (FS D Z) = (Ok [zip_download archive], fs')
    ∧ dirs fs' = delete renamed_dir (delete temp_dir D)
    ∧ zips fs' = delete zip_name Z
    ∧ process_block ss fs' = (Ok [nothing_staged], fs').
Proof.
  intros Hp Ht Hne Hplain. eexists _, _.
  split; [exact (process_block_run ss temp_dir staged D Z Hp Ht Hne Hplain)|].
  split; [reflexivity|]. split; [reflexivity|].
  apply (process_block_nothing ss temp_dir); [done|].
  rewrite lookup_delete_ne by done. apply lookup_delete_eq.
Qed.

(** ** More on the import *)

Lemma import_block_run (sh : Sheet) (ss : session_state) :
  has_required_columns sh = true ->
  import_block (Some (ReadSheet sh)) ss
  = (Session (map (imported_row (title_pairs sh)) (drawings_df ss))
             (temp_dir_path ss),
     [st_success "File names updated from the Excel file."], false).
Proof.
  intros Hc. unfold import_block. rewrite Hc, fold_update_rows.
  do 3 f_equal. apply map_ext. intros r. unfold imported_row, title_pairs.
  by rewrite imported_value_dict.
Qed.

Lemma imported_row_name (items : list (cell * cell)) (r : row) :
  original_name (imported_row items r) = original_name r.
Proof.
  unfold imported_row. by destruct (imported_value (original_name r) items).
Qed.

Lemma imported_row_twice (items : list (cell * cell)) (r : row) :
  imported_row items (imported_row items r) = imported_row items r.
Proof.
  unfold imported_row at 1. rewrite imported_row_name.
  unfold imported_row.
  by destruct (imported_value (original_name r) items).
Qed.

(** X7. Whatever is imported (no file, an unreadable file, a sheet with
    or without the required columns), the import keeps the table's rows
    in place: the original names and their order are unchanged, and so
    is the recorded staging directory; only new names can change. *)
Theorem import_keeps_original_names (uploaded : option read_excel_outcome)
    (ss : session_state) :
  map original_name (drawings_df (fst (fst (import_block uploaded ss))))
  = map original_name (drawings_df ss)
  ∧ temp_dir_path (fst (fst (import_block uploaded ss))) = temp_dir_path ss.
Proof.
  destruct uploaded as [[e|sh]|]; [done| |done].
  destruct (has_required_columns sh) eqn:Hc.
  - rewrite (import_block_run sh ss Hc). cbn [fst drawings_df temp_dir_path].
    split; [|reflexivity]. rewrite map_map. apply map_ext.
    intros r. apply imported_row_name.
  - unfold import_block. rewrite Hc. done.
Qed.

(** X8. Importing the same upload a second time changes nothing more: the
    session after two imports is the session after one. *)
Theorem import_twice_is_import_once (uploaded : option read_excel_outcome)
    (ss : session_state) :
  fst (fst (import_block uploaded (fst (fst (import_block uploaded ss)))))
  = fst (fst (import_block uploaded ss)).
Proof.
  destruct uploaded as [[e|sh]|]; [done| |done].
  destruct (has_required_columns sh) eqn:Hc.
  - rewrite !(import_block_run sh _ Hc). cbn [fst drawings_df temp_dir_path].
    f_equal. rewrite map_map. apply map_ext. intros r. apply imported_row_twice.
  - unfold import_block. rewrite Hc. done.
Qed.

Lemma title_pairs_of_columns (xs ys : list cell) :
  title_pairs (sheet_of_columns "Original Title" xs "Renamed Title" ys)
  = zip xs ys.
Proof.
  unfold title_pairs, sheet_column, sheet_of_columns. cbn [columns records].
  change (index_of "Original Title" _) with (Some 0).
  change (index_of "Renamed Title" _) with (Some 1).
  cbn iota. revert ys. induction xs as [|x xs IH]; intros [|y ys]; try reflexivity.
  cbn. f_equal. apply IH.
Qed.

Lemma required_columns_of_columns (xs ys : list cell) :
  has_required_columns (sheet_of_columns "Original Title" xs "Renamed Title" ys)
  = true.
Proof. reflexivity. Qed.

Lemma imported_value_app (n : string) (a b : list (cell * cell)) :
  imported_value n (a ++ b)
  = match imported_value n b with
    | Some v => Some v
    | None => imported_value n a
    end.
Proof.
  induction a as [|[k v] a IH]; cbn [app imported_value].
  - by destruct (imported_value n b).
  - rewrite IH. by destruct (imported_value n b).
Qed.

Lemma imported_value_other_names (n : string) (df : DataFrame)
    (values : list cell) :
  n ∉ map original_name df ->
  imported_value n (zip (map (fun r => Text (original_name r)) df) values) = None.
Proof.
  revert values. induction df as [|r df IH]; intros values Hn; [reflexivity|].
  destruct values as [|v values]; [reflexivity|].
  cbn in Hn. apply not_elem_of_cons in Hn as [Hne Hn].
  cbn. rewrite (IH values Hn).
  destruct (String.eqb n (original_name r)) eqn:He; [|reflexivity].
  apply String.eqb_eq in He. contradiction.
Qed.

Lemma import_filled_rows (pre : list (cell * cell)) (df : DataFrame)
    (values : list cell) :
  NoDup (map original_name df) ->
  length values = length df ->
  map (imported_row
         (pre ++ zip (map (fun r => Text (original_name r)) df) values)) df
  = zip_with (fun r v => Row (original_name r) v) df values.
Proof.
  revert pre values. induction df as [|r df IH]; intros pre values Hu Hlen.
  - reflexivity.
  - destruct values as [|v values]; [discriminate|].
    cbn in Hu. apply NoDup_cons in Hu as [Hr Hu].
    cbn [map zip zip_with]. f_equal.
    + unfold imported_row.
      change (pre ++ ?x :: ?l) with (pre ++ [x] ++ l).
      rewrite app_assoc, imported_value_app.
      rewrite (imported_value_other_names _ _ _ Hr), imported_value_snoc.
      cbn [name_eq]. by rewrite String.eqb_refl.
    + change (pre ++ ?x :: ?l) with (pre ++ [x] ++ l).
      rewrite app_assoc. apply IH; [done|]. cbn in Hlen. lia.
Qed.

(** X9. The round trip through a filled-in sheet: when the table's
    original names are distinct, importing the sheet that lists them in
    table order with one replacement cell each gives every row exactly
    its cell as new name. *)
Theorem import_filled_export (df : DataFrame) (values : list cell)
    (tdp : option string) :
  NoDup (map original_name df) ->
  length values = length df ->
  import_block
    (Some (ReadSheet (sheet_of_columns
                        "Original Title" (df_column "Original Name" df)
                        "Renamed Title" values)))
    (Session df tdp)
  = (Session (zip_with (fun r v => Row (original_name r) v) df values) tdp,
     [st_success "File names updated from the Excel file."], false).
Proof.
  intros Hu Hlen.
  rewrite import_block_run by apply required_columns_of_columns.
  rewrite title_pairs_of_columns. cbn [drawings_df temp_dir_path].
  do 3 f_equal. apply (import_filled_rows [] df values Hu Hlen).
Qed.

Lemma imported_value_uniform (n : string) (keys : list cell) (m : nat) (c : cell) :
  imported_value n (zip keys (replicate m c)) = None
  ∨ imported_value n (zip keys (replicate m c)) = Some c.
Proof.
  revert m. induction keys as [|k keys IH]; intros m; [by left|].
  destruct m as [|m]; [by left|].
  cbn. destruct (IH m) as [->| ->]; [|by right].
  destruct (name_eq n k); [by right|by left].
Qed.

Lemma imported_value_uniform_member (r : row) (df : DataFrame) (c : cell) :
  r ∈ df ->
  imported_value (original_name r)
    (zip (map (fun r' => Text (original_name r')) df) (replicate (length df) c))
  = Some c.
Proof.
  induction df as [|r' df IH]; intros Hin; [by apply elem_of_nil in Hin|].
  cbn [map length replicate zip imported_value].
  apply elem_of_cons in Hin as [->|Hin].
  - destruct (imported_value_uniform (original_name r')
                (map (fun r' => Text (original_name r')) df) (length df) c)
      as [->| ->]; [|reflexivity].
    cbn [name_eq]. by rewrite String.eqb_refl.
  - by rewrite (IH Hin).
Qed.

(** X10. Importing a sheet that lists the table's names with the same
    cell in every 'Renamed Title' (as the exported sheet does, with
    blanks) gives every row that cell as new name: the edits made so far
    are all overwritten. *)
Theorem import_unfilled_export_clears_edits (df : DataFrame) (c : cell)
    (tdp : option string) :
  import_block
    (Some (ReadSheet (sheet_of_columns
                        "Original Title" (df_column "Original Name" df)
                        "Renamed Title" (replicate (length df) c))))
    (Session df tdp)
  = (Session (map (fun r => Row (original_name r) c) df) tdp,
     [st_success "File names updated from the Excel file."], false).
Proof.
  rewrite import_block_run by apply required_columns_of_columns.
  rewrite title_pairs_of_columns. cbn [drawings_df temp_dir_path].
  do 3 f_equal. apply map_ext_in. intros r Hin.
  apply list_elem_of_In in Hin. unfold imported_row, df_column.
  cbn [String.eqb Ascii.eqb Bool.eqb].
  by rewrite (imported_value_uniform_member r df c Hin).
Qed.

(** ** More on the upload handling *)

Lemma previous_new_name_member (df : DataFrame) (r : row) :
  NoDup (map original_name df) ->
  r ∈ df ->
  previous_new_name (original_name r) df = Some (new_name r).
Proof.
  induction df as [|r' df IH]; intros Hu Hin; [by apply elem_of_nil in Hin|].
  cbn in Hu. apply NoDup_cons in Hu as [Hr' Hu].
  cbn [previous_new_name].
  apply elem_of_cons in Hin as [->|Hin].
  - by rewrite String.eqb_refl.
  - destruct (String.eqb (original_name r) (original_name r')) eqn:He.
    + apply String.eqb_eq in He. destruct Hr'. rewrite <- He.
      apply list_elem_of_fmap. eauto.
    + by apply IH.
Qed.

(** X11. Running the upload handling again with the files the table
    already lists keeps the table: when the original names are distinct,
    some new name is not blank and the batch's names are the table's
    names in order, every row keeps its new name (a blank one becoming
    the empty text), the recorded staging directory stays and the disk
    is not touched. *)
Theorem rerun_with_same_uploads_keeps_table (files : list UploadedFile)
    (df : DataFrame) (tdp : option string) (fs : filesystem) :
  NoDup (map original_name df) ->
  forallb isnull (map new_name df) = false ->
  map name files = map original_name df ->
  reconcile_uploads files (Session df tdp) fs
  = (Ok (Session (map fillna_row df) tdp), fs).
Proof.
  intros Hu Hnull Hnames. unfold reconcile_uploads, df_column.
  cbn [String.eqb Ascii.eqb Bool.eqb drawings_df temp_dir_path].
  rewrite Hnull. cbn [negb]. io_unfold.
  rewrite (series_map_unique _ _ Hu), zip_rows.
  do 3 f_equal.
  rewrite <- (map_map name
    (fun n => Row n (fillna_empty (default NaN (previous_new_name n df))))).
  rewrite Hnames, map_map. apply map_ext_in. intros r Hin.
  apply list_elem_of_In in Hin.
  by rewrite (previous_new_name_member df r Hu Hin).
Qed.

Lemma rerun_with_same_uploads_keeps_table_witness :
  NoDup (map original_name (drawings_df edited_session))
  ∧ forallb isnull (map new_name (drawings_df edited_session)) = false
  ∧ map name [Upload "a.png" png_a; Upload "b.jpg" jpg_b]
    = map original_name (drawings_df edited_session)
  ∧ reconcile_uploads [Upload "a.png" png_a; Upload "b.jpg" jpg_b]
      (Session (drawings_df edited_session) (Some "temp_uploaded_files"))
      staged_ab
    = (Ok (Session (map fillna_row (drawings_df edited_session))
                   (Some "temp_uploaded_files")), staged_ab).
Proof.
  assert (Hu : NoDup (map original_name (drawings_df edited_session)))
    by by_computation.
  assert (Hn : forallb isnull (map new_name (drawings_df edited_session)) = false)
    by reflexivity.
  assert (Hf : map name [Upload "a.png" png_a; Upload "b.jpg" jpg_b]
               = map original_name (drawings_df edited_session))
    by reflexivity.
  split; [exact Hu|]. split; [exact Hn|]. split; [exact Hf|].
  exact (rerun_with_same_uploads_keeps_table _ _ _ staged_ab Hu Hn Hf).
Defined.

(** X12. When the table lists an original name twice and some new name
    is not blank (the empty text counts), the upload handling raises
    [InvalidIndexError] for every batch, leaving the disk as it is. *)
Theorem repeated_name_breaks_upload_handling (files : list UploadedFile)
    (ss : session_state) (fs : filesystem) :
  ¬ NoDup (map original_name (drawings_df ss)) ->
  forallb isnull (map new_name (drawings_df ss)) = false ->
  reconcile_uploads files ss fs = (Raise InvalidIndexError, fs).
Proof.
  intros Hdup Hnull. unfold reconcile_uploads, df_column.
  cbn [String.eqb Ascii.eqb Bool.eqb]. rewrite Hnull. cbn [negb].
  io_unfold. unfold series_map, get_indexer.
  rewrite bool_decide_false; [reflexivity|].
  unfold set_index_new_name. by rewrite map_map.
Qed.

Lemma repeated_name_breaks_upload_handling_witness :
  ¬ NoDup (map original_name
             [Row "a.png" (Text ""); Row "a.png" (Text "")])
  ∧ forallb isnull (map new_name
             [Row "a.png" (Text ""); Row "a.png" (Text "")]) = false
  ∧ reconcile_uploads second_batch
      (Session [Row "a.png" (Text ""); Row "a.png" (Text "")]
               (Some "temp_uploaded_files")) staged_ab
    = (Raise InvalidIndexError, staged_ab).
Proof.
  assert (Hd : ¬ NoDup (map original_name
                          [Row "a.png" (Text ""); Row "a.png" (Text "")]))
    by by_computation.
  assert (Hn : forallb isnull (map new_name
                 [Row "a.png" (Text ""); Row "a.png" (Text "")]) = false)
    by reflexivity.
  split; [exact Hd|]. split; [exact Hn|].
  exact (repeated_name_breaks_upload_handling second_batch
           (Session [Row "a.png" (Text ""); Row "a.png" (Text "")]
                    (Some "temp_uploaded_files")) staged_ab Hd Hn).
Defined.

(** ** The export handler *)

(** X15. The export handler never raises and never touches the disk: on
    an empty table it shows the 'No file names to export.' error, and on
    any other table it offers the sheet of the table's original names
    with a blank 'Renamed Title' in every record. *)
Theorem export_block_offers_names (ss : session_state) (fs : filesystem) :
  export_block ss fs
  = (Ok [match drawings_df ss with
         | [] => st_error "No file names to export."
         | _ :: _ =>
             excel_download
               (Some {| columns := ["Original Title"; "Renamed Title"];
                        records := map blank_record (drawings_df ss) |})
         end], fs).
Proof.
  unfold export_block. destruct (drawings_df ss) as [|r df] eqn:Hdf.
  - reflexivity.
  - cbn [df_empty negb]. rewrite bind_run.
    unfold create_excel_download_link, sheet_of_columns. cbn [df_empty].
    rewrite export_records. reflexivity.
Qed.

(** X16. [create_excel_download_link] with a column name that is not one
    of the table's two columns raises [ValueError] naming the column on
    a table that has rows, and still returns nothing on the empty table
    (the emptiness test comes first). *)
Theorem export_unknown_column (r : row) (df : DataFrame) (col : string) :
  col ∉ df_columns ->
  create_excel_download_link [] col = Ok None
  ∧ create_excel_download_link (r :: df) col
    = Raise (ValueError ("Column '" +:+ col +:+ "' not found in DataFrame")).
Proof.
  intros Hcol. split; [reflexivity|].
  unfold create_excel_download_link. cbn [df_empty].
  by rewrite bool_decide_false.
Qed.

Lemma export_unknown_column_witness :
  ("Title" ∉ df_columns)
  ∧ create_excel_download_link [] "Title" = Ok None
  ∧ create_excel_download_link (Row "a.png" NaN :: table_with_missing) "Title"
    = Raise (ValueError ("Column '" +:+ "Title" +:+ "' not found in DataFrame")).
Proof.
  assert (Hc : "Title" ∉ df_columns) by by_computation.
  split; [exact Hc|].
  exact (export_unknown_column (Row "a.png" NaN) table_with_missing "Title" Hc).
Defined.

(** ** The further theorems at concrete inputs *)

(** A table in which two rows resolve to the same output name. *)
Lemma archive_entry_is_last_copy_witness :
  dirs staged_ab !! "temp_uploaded_files"
    = Some ({[ "a.png" := png_a; "b.jpg" := jpg_b ]} : gmap string bytes)
  ∧ "temp_uploaded_files" ≠ renamed_dir
  ∧ plain_outputs {[ "a.png" := png_a; "b.jpg" := jpg_b ]}
      [Row "a.png" (Text "plan.png"); Row "b.jpg" (Text "plan.png")] = true
  ∧ ∃ fs' archive,
      process_and_zip_files
        [Row "a.png" (Text "plan.png"); Row "b.jpg" (Text "plan.png")]
        "temp_uploaded_files" (FS (dirs staged_ab) ∅) = (Ok zip_name, fs')
      ∧ zips fs' !! zip_name = Some archive
      ∧ forall k,
          archive !! k
          = match last_copy {[ "a.png" := png_a; "b.jpg" := jpg_b ]}
                    [Row "a.png" (Text "plan.png"); Row "b.jpg" (Text "plan.png")] k with
            | Some content => Some content
            | None => default ∅ (dirs staged_ab !! renamed_dir) !! k
            end.
Proof.
  assert (Hs : dirs staged_ab !! "temp_uploaded_files"
               = Some ({[ "a.png" := png_a; "b.jpg" := jpg_b ]} : gmap string bytes))
    by (vm_compute; reflexivity).
  assert (Hne : "temp_uploaded_files" ≠ renamed_dir) by by_computation.
  assert (Hp : plain_outputs {[ "a.png" := png_a; "b.jpg" := jpg_b ]}
                 [Row "a.png" (Text "plan.png"); Row "b.jpg" (Text "plan.png")]
               = true) by (vm_compute; reflexivity).
  split; [exact Hs|]. split; [exact Hne|]. split; [exact Hp|].
  exact (archive_entry_is_last_copy _ "temp_uploaded_files" _
           (dirs staged_ab) ∅ Hs Hne Hp).
Defined.

Lemma archive_names_are_staged_output_names_witness :
  dirs staged_ab !! "temp_uploaded_files"
    = Some ({[ "a.png" := png_a; "b.jpg" := jpg_b ]} : gmap string bytes)
  ∧ "temp_uploaded_files" ≠ renamed_dir
  ∧ plain_outputs {[ "a.png" := png_a; "b.jpg" := jpg_b ]} table_with_missing
    = true
  ∧ dirs staged_ab !! renamed_dir = None
  ∧ ∃ fs' archive,
      process_and_zip_files table_with_missing "temp_uploaded_files"
        (FS (dirs staged_ab) ∅) = (Ok zip_name, fs')
      ∧ zips fs' !! zip_name = Some archive
      ∧ forall k,
          is_Some (archive !! k)
          <-> ∃ r, r ∈ table_with_missing
                   ∧ is_staged {[ "a.png" := png_a; "b.jpg" := jpg_b ]} r = true
                   ∧ renamed_file r = k.
Proof.
  assert (Hs : dirs staged_ab !! "temp_uploaded_files"
               = Some ({[ "a.png" := png_a; "b.jpg" := jpg_b ]} : gmap string bytes))
    by (vm_compute; reflexivity).
  assert (Hne : "temp_uploaded_files" ≠ renamed_dir) by by_computation.
  assert (Hp : plain_outputs {[ "a.png" := png_a; "b.jpg" := jpg_b ]}
                             table_with_missing = true)
    by (vm_compute; reflexivity).
  assert (Ho : dirs staged_ab !! renamed_dir = None) by (vm_compute; reflexivity).
  split; [exact Hs|]. split; [exact Hne|]. split; [exact Hp|]. split; [exact Ho|].
  exact (archive_names_are_staged_output_names table_with_missing
           "temp_uploaded_files" _ (dirs staged_ab) ∅ Hs Hne Hp Ho).
Defined.

Lemma materializer_without_staging_raises_witness :
  dirs no_disk !! "temp_uploaded_files" = None
  ∧ "temp_uploaded_files" ≠ renamed_dir
  ∧ process_and_zip_files table_with_missing "temp_uploaded_files"
      (FS (dirs no_disk) ∅)
    = (Raise (FileNotFoundError "temp_uploaded_files"),
       FS (<[renamed_dir := default ∅ (dirs no_disk !! renamed_dir)]> (dirs no_disk))
          (<[zip_name := default ∅ (dirs no_disk !! renamed_dir)]> ∅)).
Proof.
  assert (Hs : dirs no_disk !! "temp_uploaded_files" = None)
    by (vm_compute; reflexivity).
  assert (Hne : "temp_uploaded_files" ≠ renamed_dir) by by_computation.
  split; [exact Hs|]. split; [exact Hne|].
  exact (materializer_without_staging_raises table_with_missing
           "temp_uploaded_files" (dirs no_disk) ∅ Hs Hne).
Defined.

Lemma process_rename_works_once_witness :
  temp_dir_path edited_session = Some "temp_uploaded_files"
  ∧ dirs staged_ab !! "temp_uploaded_files"
    = Some ({[ "a.png" := png_a; "b.jpg" := jpg_b ]} : gmap string bytes)
  ∧ "temp_uploaded_files" ≠ renamed_dir
  ∧ plain_outputs {[ "a.png" := png_a; "b.jpg" := jpg_b ]}
      (drawings_df edited_session) = true
  ∧ ∃ archive fs',
      process_block edited_session (FS (dirs staged_ab) ∅)
      = (Ok [zip_download archive], fs')
      ∧ dirs fs' = delete renamed_dir (delete "temp_uploaded_files" (dirs staged_ab))
      ∧ zips fs' = delete zip_name ∅
      ∧ process_block edited_session fs' = (Ok [nothing_staged], fs').
Proof.
  assert (Hp : temp_dir_path edited_session = Some "temp_uploaded_files")
    by reflexivity.
  assert (Hs : dirs staged_ab !! "temp_uploaded_files"
               = Some ({[ "a.png" := png_a; "b.jpg" := jpg_b ]} : gmap string bytes))
    by (vm_compute; reflexivity).
  assert (Hne : "temp_uploaded_files" ≠ renamed_dir) by by_computation.
  assert (Hplain : plain_outputs {[ "a.png" := png_a; "b.jpg" := jpg_b ]}
                     (drawings_df edited_session) = true)
    by (vm_compute; reflexivity).
  split; [exact Hp|]. split; [exact Hs|]. split; [exact Hne|].
  split; [exact Hplain|].
  exact (process_rename_works_once edited_session "temp_uploaded_files" _
           (dirs staged_ab) ∅ Hp Hs Hne Hplain).
Defined.

Lemma import_filled_export_witness :
  NoDup (map original_name (drawings_df edited_session))
  ∧ length [Text "alpha"; Text "beta"] = length (drawings_df edited_session)
  ∧ import_block
      (Some (ReadSheet (sheet_of_columns
               "Original Title"
               (df_column "Original Name" (drawings_df edited_session))
               "Renamed Title" [Text "alpha"; Text "beta"])))
      (Session (drawings_df edited_session) None)
    = (Session (zip_with (fun r v => Row (original_name r) v)
                         (drawings_df edited_session)
                         [Text "alpha"; Text "beta"]) None,
       [st_success "File names updated from the Excel file."], false).
Proof.
  assert (Hu : NoDup (map original_name (drawings_df edited_session)))
    by by_computation.
  assert (Hl : length [Text "alpha"; Text "beta"]
               = length (drawings_df edited_session)) by reflexivity.
  split; [exact Hu|]. split; [exact Hl|].
  exact (import_filled_export (drawings_df edited_session)
           [Text "alpha"; Text "beta"] None Hu Hl).
Defined.

(** ** Runs of the script that process the table *)

Lemma reconcile_existing_run (files : list UploadedFile) (ss : session_state)
    (fs : filesystem) :
  NoDup (map original_name (drawings_df ss)) ->
  forallb isnull (map new_name (drawings_df ss)) = false ->
  reconcile_uploads files ss fs
  = (Ok (Session (map (reconciled_row (drawings_df ss)) files)
                 (temp_dir_path ss)), fs).
Proof.
  intros Hu Hnull. unfold reconcile_uploads, df_column.
  cbn [String.eqb Ascii.eqb Bool.eqb]. rewrite Hnull. cbn [negb]. io_unfold.
  rewrite (series_map_unique _ _ Hu), zip_rows.
  do 3 f_equal. apply map_ext. intros f.
  unfold reconciled_row. by rewrite fillna_carried.
Qed.

Lemma upload_block_existing (files : list UploadedFile) (ss : session_state)
    (fs : filesystem) :
  NoDup (map original_name (drawings_df ss)) ->
  forallb isnull (map new_name (drawings_df ss)) = false ->
  ∃ ss1,
    upload_block files ss fs = (Ok ss1, fs)
    ∧ temp_dir_path ss1 = temp_dir_path ss
    ∧ forallb isnull (map new_name (drawings_df ss1)) = false
    ∧ (NoDup (map name files) -> NoDup (map original_name (drawings_df ss1))).
Proof.
  intros Hu Hnull. destruct files as [|f files].
  - exists ss. by repeat split.
  - eexists. split; [apply (reconcile_existing_run _ _ _ Hu Hnull)|].
    cbn [temp_dir_path drawings_df]. split; [reflexivity|]. split; [reflexivity|].
    intros Hfiles. rewrite map_map. exact Hfiles.
Qed.

Lemma main_only_process (w : widgets) (ss : session_state) (fs : filesystem) :
  process_clicked w = true ->
  export_clicked w = false ->
  import_clicked w = false ->
  main w ss fs
  = match upload_block (uploaded_files w) ss fs with
    | (Ok ss1, fs1) =>
        match process_block ss1 fs1 with
        | (Ok shown, fs2) => (Ok (ss1, shown), fs2)
        | (Raise e, fs2) => (Raise e, fs2)
        end
    | (Raise e, fs1) => (Raise e, fs1)
    end.
Proof.
  intros Hp He Hi. unfold main. rewrite bind_run.
  destruct (upload_block (uploaded_files w) ss fs) as [[ss1|e] fs1]; [|reflexivity].
  destruct (rename_choice w); rewrite ?Hp, ?He, ?Hi.
  - rewrite bind_run. by destruct (process_block ss1 fs1) as [[shown|e] fs2].
  - unfold mbind, IO_bind, mret, IO_ret. cbn iota.
    by destruct (process_block ss1 fs1) as [[shown|e] fs2].
Qed.

(** X17. The script processes the table once.  Take a run in which only
    'Process Rename' is clicked, on a session whose table has distinct
    original names and some new name that is not blank, with distinct
    names among the files uploaded in that run, and suppose the run
    offers the archive.  Then in any later run where only 'Process
    Rename' is clicked, whatever files are uploaded, the upload handling
    stages nothing and 'Process Rename' reports that nothing is staged,
    the disk staying as the first run left it. *)
Theorem script_processes_once (w w' : widgets) (ss ss1 : session_state)
    (temp_dir : string) (fs fs1 : filesystem) (archive : gmap string bytes) :
  process_clicked w = true -> export_clicked w = false ->
  import_clicked w = false ->
  process_clicked w' = true -> export_clicked w' = false ->
  import_clicked w' = false ->
  NoDup (map original_name (drawings_df ss)) ->
  NoDup (map name (uploaded_files w)) ->
  forallb isnull (map new_name (drawings_df ss)) = false ->
  temp_dir_path ss = Some temp_dir ->
  temp_dir ≠ renamed_dir ->
  main w ss fs = (Ok (ss1, [zip_download archive]), fs1) ->
  ∃ ss2, main w' ss1 fs1 = (Ok (ss2, [nothing_staged]), fs1).
Proof.
  intros Hp He Hi Hp' He' Hi' Hu Hfiles Hnull Hpath Hne Hrun.
  destruct (upload_block_existing (uploaded_files w) ss fs Hu Hnull)
    as (ss0 & Hup & Hpath0 & Hnull0 & Hu0).
  rewrite Hpath in Hpath0. specialize (Hu0 Hfiles).
  rewrite (main_only_process w ss fs Hp He Hi), Hup in Hrun.
  destruct (process_block ss0 fs) as [[shown|e] fs0] eqn:Hblock;
    [|discriminate].
  injection Hrun as -> -> ->.
  destruct fs as [D Z].
  pose proof (process_block_offered ss1 temp_dir D Z archive fs1
                Hpath0 Hne Hblock) as Hgone.
  destruct (upload_block_existing (uploaded_files w') ss1 fs1 Hu0 Hnull0)
    as (ss2 & Hup' & Hpath2 & _ & _).
  rewrite Hpath0 in Hpath2.
  exists ss2. rewrite (main_only_process w' ss1 fs1 Hp' He' Hi'), Hup'.
  destruct fs1 as [D1 Z1].
  by rewrite (process_block_nothing ss2 temp_dir D1 Z1 Hpath2 Hgone).
Qed.

Lemma script_processes_once_witness :
  let w := Widgets second_batch RenameFromExcelSheet false None false true in
  process_clicked w = true ∧ export_clicked w = false
  ∧ import_clicked w = false
  ∧ NoDup (map original_name (drawings_df edited_session))
  ∧ NoDup (map name (uploaded_files w))
  ∧ forallb isnull (map new_name (drawings_df edited_session)) = false
  ∧ temp_dir_path edited_session = Some "temp_uploaded_files"
  ∧ "temp_uploaded_files" ≠ renamed_dir
  ∧ ∃ ss1 archive fs1,
      main w edited_session staged_ab = (Ok (ss1, [zip_download archive]), fs1)
      ∧ ∃ ss2, main w ss1 fs1 = (Ok (ss2, [nothing_staged]), fs1).
Proof.
  intros w.
  assert (Hu : NoDup (map original_name (drawings_df edited_session)))
    by by_computation.
  assert (Hf : NoDup (map name (uploaded_files w))) by by_computation.
  assert (Hne : "temp_uploaded_files" ≠ renamed_dir) by by_computation.
  repeat (split; [first [reflexivity | assumption]|]).
  eexists _, _, _. split; [vm_compute; reflexivity|].
  eapply (script_processes_once w w edited_session _ "temp_uploaded_files"
            staged_ab _ _ eq_refl eq_refl eq_refl eq_refl eq_refl eq_refl
            Hu Hf eq_refl eq_refl Hne).
  vm_compute. reflexivity.
Defined.

(** ** The first upload and a failed read *)

(** X18. When every new name of the table is blank (the table of a new
    session included), the upload handling starts afresh: the table
    becomes the batch's names in order, each with the empty new name,
    the staging directory [temp_uploaded_files] is recorded in the
    session, and that directory holds under each uploaded name the
    content of the batch's last file of that name, next to what it held
    before under other names. *)
Theorem fresh_upload_stages_batch (files : list UploadedFile)
    (ss : session_state) (D Z : gmap string (gmap string bytes)) :
  forallb isnull (map new_name (drawings_df ss)) = true ->
  ∃ dir : gmap string bytes,
    reconcile_uploads files ss (FS D Z)
    = (Ok (Session (map (fun file => Row (name file) (Text "")) files)
                   (Some "temp_uploaded_files")),
       FS (<["temp_uploaded_files" := dir]> D) Z)
    ∧ forall n,
        dir !! n
        = match last_upload n files with
          | Some content => Some content
          | None => default ∅ (D !! "temp_uploaded_files") !! n
          end.
Proof.
  intros Hnull. eexists. split.
  - unfold reconcile_uploads, df_column.
    cbn [String.eqb Ascii.eqb Bool.eqb]. rewrite Hnull. cbn [negb].
    rewrite bind_run, save_uploaded_files_run.
    change (mret ?x) with (fun fs : filesystem => (Ok x, fs)). cbn beta.
    by rewrite map_map.
  - intros n. apply written_lookup.
Qed.

Lemma fresh_upload_stages_batch_witness :
  forallb isnull (map new_name (drawings_df new_session)) = true
  ∧ ∃ dir : gmap string bytes,
      reconcile_uploads second_batch new_session (FS (dirs staged_ab) ∅)
      = (Ok (Session (map (fun file => Row (name file) (Text "")) second_batch)
                     (Some "temp_uploaded_files")),
         FS (<["temp_uploaded_files" := dir]> (dirs staged_ab)) ∅)
      ∧ forall n,
          dir !! n
          = match last_upload n second_batch with
            | Some content => Some content
            | None => default ∅ (dirs staged_ab !! "temp_uploaded_files") !! n
            end.
Proof.
  split; [reflexivity|].
  exact (fresh_upload_stages_batch second_batch new_session
           (dirs staged_ab) ∅ eq_refl).
Defined.

(** X20. When reading the uploaded Excel file fails, the run of the
    script ends at the import: after the upload handling, the session is
    left as it is, the read error is shown with the exception's text,
    and 'Process Rename' is not carried out in that run even if it is
    clicked. *)
Theorem failed_read_ends_the_run (w : widgets) (e : string)
    (ss : session_state) (fs : filesystem) :
  rename_choice w = RenameFromExcelSheet ->
  export_clicked w = false ->
  import_clicked w = true ->
  uploaded_excel w = Some (ReadRaises e) ->
  main w ss fs
  = match upload_block (uploaded_files w) ss fs with
    | (Ok ss1, fs1) =>
        (Ok (ss1, [st_error ("Error reading the Excel file: " +:+ e)]), fs1)
    | (Raise x, fs1) => (Raise x, fs1)
    end.
Proof.
  intros Hc He Hi Hx. unfold main. rewrite bind_run.
  destruct (upload_block (uploaded_files w) ss fs) as [[ss1|x] fs1]; [|reflexivity].
  rewrite Hc, He, Hi, Hx. reflexivity.
Qed.

Lemma failed_read_ends_the_run_witness :
  let w := Widgets second_batch RenameFromExcelSheet false
                   (Some (ReadRaises "File is not a zip file")) true true in
  rename_choice w = RenameFromExcelSheet
  ∧ export_clicked w = false
  ∧ import_clicked w = true
  ∧ uploaded_excel w = Some (ReadRaises "File is not a zip file")
  ∧ main w edited_session staged_ab
    = match upload_block (uploaded_files w) edited_session staged_ab with
      | (Ok ss1, fs1) =>
          (Ok (ss1, [st_error ("Error reading the Excel file: "
                               +:+ "File is not a zip file")]), fs1)
      | (Raise x, fs1) => (Raise x, fs1)
      end.
Proof.
  intros w. repeat (split; [reflexivity|]).
  exact (failed_read_ends_the_run w "File is not a zip file" edited_session
           staged_ab eq_refl eq_refl eq_refl eq_refl).
Defined.

(** ** A new name with a path separator *)

Lemma for_each_app {A} (xs ys : list A) (body : A -> IO unit) (fs : filesystem) :
  for_each (xs ++ ys) body fs
  = match for_each xs body fs with
    | (Ok _, fs') => for_each ys body fs'
    | (Raise e, fs') => (Raise e, fs')
    end.
Proof.
  revert fs. induction xs as [|x xs IH]; intros fs; [reflexivity|].
  cbn [app for_each]. rewrite !bind_run.
  destruct (body x fs) as [[[]|e] fs1]; [apply IH|reflexivity].
Qed.

(** X21. A staged row whose output name leads through a sub-directory
    stops the run: when the rows before it resolve to plain file names
    and the first component of its output name ([A] in [A/01.png]) is a
    plain name that is not a file of the output directory, the copy
    raises [FileNotFoundError] for the joined path; the earlier copies
    stay in the output directory, the later rows are not processed, no
    archive is written and neither directory is removed. *)
Theorem separator_in_output_name_aborts (before after : DataFrame) (r : row)
    (content : bytes) (temp_dir : string) (staged : gmap string bytes)
    (D Z : gmap string (gmap string bytes)) :
  D !! temp_dir = Some staged ->
  temp_dir ≠ renamed_dir ->
  plain_outputs staged before = true ->
  staged !! original_name r = Some content ->
  sub_directory_path (renamed_file r) = true ->
  copied_files staged before (default ∅ (D !! renamed_dir))
    !! first_component (renamed_file r) = None ->
  process_and_zip_files (before ++ r :: after) temp_dir (FS D Z)
  = (Raise (FileNotFoundError (join renamed_dir (renamed_file r))),
     FS (<[renamed_dir := copied_files staged before
                            (default ∅ (D !! renamed_dir))]> D) Z).
Proof.
  intros Ht Hne Hp Hs Hsub Hfree. unfold process_and_zip_files.
  rewrite bind_run, makedirs_run, bind_run, for_each_app.
  rewrite (copy_rows_run temp_dir staged D Z Ht Hne) by exact Hp.
  cbn [for_each]. rewrite bind_run.
  by rewrite (copy_row_sub_directory temp_dir staged D Z Ht Hne _ r content).
Qed.

Lemma separator_in_output_name_aborts_witness :
  dirs staged_ab !! "temp_uploaded_files"
    = Some ({[ "a.png" := png_a; "b.jpg" := jpg_b ]} : gmap string bytes)
  ∧ "temp_uploaded_files" ≠ renamed_dir
  ∧ plain_outputs {[ "a.png" := png_a; "b.jpg" := jpg_b ]}
      [Row "b.jpg" (Text "beta")] = true
  ∧ ({[ "a.png" := png_a; "b.jpg" := jpg_b ]} : gmap string bytes)
      !! original_name (Row "a.png" (Text "A/01")) = Some png_a
  ∧ sub_directory_path (renamed_file (Row "a.png" (Text "A/01"))) = true
  ∧ copied_files {[ "a.png" := png_a; "b.jpg" := jpg_b ]}
      [Row "b.jpg" (Text "beta")] (default ∅ (dirs staged_ab !! renamed_dir))
      !! first_component (renamed_file (Row "a.png" (Text "A/01"))) = None
  ∧ process_and_zip_files
      ([Row "b.jpg" (Text "beta")] ++ Row "a.png" (Text "A/01")
         :: [Row "b.jpg" (Text "gamma")])
      "temp_uploaded_files" (FS (dirs staged_ab) ∅)
    = (Raise (FileNotFoundError
                (join renamed_dir (renamed_file (Row "a.png" (Text "A/01"))))),
       FS (<[renamed_dir :=
               copied_files {[ "a.png" := png_a; "b.jpg" := jpg_b ]}
                 [Row "b.jpg" (Text "beta")]
                 (default ∅ (dirs staged_ab !! renamed_dir))]> (dirs staged_ab))
          ∅).
Proof.
  assert (Hs : dirs staged_ab !! "temp_uploaded_files"
               = Some ({[ "a.png" := png_a; "b.jpg" := jpg_b ]} : gmap string bytes))
    by (vm_compute; reflexivity).
  assert (Hne : "temp_uploaded_files" ≠ renamed_dir) by by_computation.
  assert (Hp : plain_outputs {[ "a.png" := png_a; "b.jpg" := jpg_b ]}
                 [Row "b.jpg" (Text "beta")] = true) by (vm_compute; reflexivity).
  assert (Hc : ({[ "a.png" := png_a; "b.jpg" := jpg_b ]} : gmap string bytes)
                 !! original_name (Row "a.png" (Text "A/01")) = Some png_a)
    by (vm_compute; reflexivity).
  assert (Hsub : sub_directory_path (renamed_file (Row "a.png" (Text "A/01")))
                 = true) by reflexivity.
  assert (Hfree : copied_files {[ "a.png" := png_a; "b.jpg" := jpg_b ]}
                    [Row "b.jpg" (Text "beta")]
                    (default ∅ (dirs staged_ab !! renamed_dir))
                    !! first_component (renamed_file (Row "a.png" (Text "A/01")))
                  = None) by (vm_compute; reflexivity).
  split; [exact Hs|]. split; [exact Hne|]. split; [exact Hp|].
  split; [exact Hc|]. split; [exact Hsub|]. split; [exact Hfree|].
  exact (separator_in_output_name_aborts [Row "b.jpg" (Text "beta")]
           [Row "b.jpg" (Text "gamma")] (Row "a.png" (Text "A/01")) png_a
           "temp_uploaded_files" _ (dirs staged_ab) ∅ Hs Hne Hp Hc Hsub Hfree).
Defined.
